(** * BMP280 pressure/temperature sensor driver (i2c/bmp280_i2c/bmp280_i2c.c)

    A shallow embedding of the driver and the properties its design document
    states about it.

    Target assumptions, fixed by the board the example is written for (the
    Raspberry Pi Pico, RP2040, arm-none-eabi): [int], [long] and data pointers
    are 32 bits wide, memory is byte addressed and little endian, signed
    arithmetic wraps in two's complement, [>>] on a signed operand is an
    arithmetic shift, and a narrowing conversion keeps the low bits.  A call
    that passes a pointer of another type is accepted as the compiler accepts
    it, with a diagnostic, and the callee reads the bytes found at the
    address it receives. *)

From Stdlib Require Import ZArith List Lia Bool.
From Stdlib Require Import Strings.Byte.
Import ListNotations.
Local Open Scope Z_scope.

(* ================================================================== *)
(** ** Fixed-width integers *)

Module Fixed.

(** Unsigned truncation to [w] bits. *)
Definition unsigned (w x : Z) : Z := x mod 2 ^ w.

(** Two's-complement reading of the low [w] bits. *)
Definition signed (w x : Z) : Z :=
  let u := x mod 2 ^ w in
  if u <? 2 ^ (w - 1) then u else u - 2 ^ w.

Definition u8 : Z -> Z := unsigned 8.
Definition u16 : Z -> Z := unsigned 16.
Definition u32 : Z -> Z := unsigned 32.
Definition i16 : Z -> Z := signed 16.
Definition i32 : Z -> Z := signed 32.

(** [int32_t] operators. *)
Definition add32 (a b : Z) : Z := i32 (a + b).
Definition sub32 (a b : Z) : Z := i32 (a - b).
Definition mul32 (a b : Z) : Z := i32 (a * b).
Definition shl32 (a n : Z) : Z := i32 (Z.shiftl a n).
Definition sar32 (a n : Z) : Z := Z.shiftr a n.

(** [uint32_t] operators. *)
Definition usub32 (a b : Z) : Z := u32 (a - b).
Definition umul32 (a b : Z) : Z := u32 (a * b).
Definition ushl32 (a n : Z) : Z := u32 (Z.shiftl a n).
Definition ushr32 (a n : Z) : Z := Z.shiftr a n.

(** Unsigned division; [None] is the division-by-zero trap. *)
Definition udiv32 (a b : Z) : option Z :=
  if b =? 0 then None else Some (a / b).

End Fixed.
Import Fixed.

(* ================================================================== *)
(** ** Byte-addressed little-endian memory *)

Definition byte_to_Z (b : byte) : Z := Z.of_N (Byte.to_N b).

Definition byte_of_Z (z : Z) : byte :=
  match Byte.of_N (Z.to_N (z mod 256)) with
  | Some b => b
  | None => x00
  end.

Definition mem : Type := Z -> byte.

Definition load8 (m : mem) (a : Z) : Z := byte_to_Z (m a).

Definition store8 (m : mem) (a v : Z) : mem :=
  fun x => if x =? a then byte_of_Z v else m x.

Definition load_u16 (m : mem) (a : Z) : Z :=
  Z.lor (load8 m a) (Z.shiftl (load8 m (a + 1)) 8).

Definition load_i16 (m : mem) (a : Z) : Z := i16 (load_u16 m a).

Definition load_u32 (m : mem) (a : Z) : Z :=
  Z.lor (load_u16 m a) (Z.shiftl (load_u16 m (a + 2)) 16).

Definition load_i32 (m : mem) (a : Z) : Z := i32 (load_u32 m a).

Definition store16 (m : mem) (a v : Z) : mem :=
  store8 (store8 m a v) (a + 1) (Z.shiftr v 8).

Definition store32 (m : mem) (a v : Z) : mem :=
  store16 (store16 m a v) (a + 2) (Z.shiftr v 16).

(* ================================================================== *)
(** ** The I2C bus

    [i2c_write_blocking] and [i2c_read_blocking] belong to the SDK.  A bus
    keeps the list of transactions issued so far; what a read leaves in the
    destination buffer is decided by [sensor], an arbitrary function of the
    history, so every buffer content is covered.  The status the SDK calls
    return is dropped, as the driver never looks at it. *)

Inductive i2c_txn : Type :=
| I2cWrite (dev : Z) (src : list byte) (nostop : bool)
| I2cRead (dev : Z) (len : nat) (nostop : bool).

Record i2c_bus : Type := {
  sensor : list i2c_txn -> nat -> byte;
  i2c_trace : list i2c_txn
}.

Definition i2c_write_blocking (b : i2c_bus) (dev : Z) (src : list byte)
    (nostop : bool) : i2c_bus :=
  {| sensor := sensor b; i2c_trace := i2c_trace b ++ [I2cWrite dev src nostop] |}.

Definition i2c_read_blocking (b : i2c_bus) (dev : Z) (len : nat)
    (nostop : bool) : list byte * i2c_bus :=
  (map (sensor b (i2c_trace b)) (seq 0 len),
   {| sensor := sensor b; i2c_trace := i2c_trace b ++ [I2cRead dev len nostop] |}).

(** [buf[i]] for a [uint8_t] array, promoted to [int]. *)
Definition at_index (buf : list byte) (i : nat) : Z := byte_to_Z (nth i buf x00).

(* ================================================================== *)
(** ** Register map (lines 31-77) *)

Definition NUM_CALIB_PARAMS : nat := 24.

Definition addr : Z := 0x76.

Definition REG_CONFIG : Z := 0xF5.
Definition REG_CTRL_MEAS : Z := 0xF4.
Definition REG_RESET : Z := 0xE0.

Definition REG_TEMP_XLSB : Z := 0xFC.
Definition REG_TEMP_LSB : Z := 0xFB.
Definition REG_TEMP_MSB : Z := 0xFA.

Definition REG_PRESSURE_XLSB : Z := 0xF9.
Definition REG_PRESSURE_LSB : Z := 0xF8.
Definition REG_PRESSURE_MSB : Z := 0xF7.

Definition REG_DIG_T1_LSB : Z := 0x88.
Definition REG_DIG_T1_MSB : Z := 0x89.
Definition REG_DIG_T2_LSB : Z := 0x8A.
Definition REG_DIG_T2_MSB : Z := 0x8B.
Definition REG_DIG_T3_LSB : Z := 0x8C.
Definition REG_DIG_T3_MSB : Z := 0x8D.
Definition REG_DIG_P1_LSB : Z := 0x8E.
Definition REG_DIG_P1_MSB : Z := 0x8F.
Definition REG_DIG_P2_LSB : Z := 0x90.
Definition REG_DIG_P2_MSB : Z := 0x91.
Definition REG_DIG_P3_LSB : Z := 0x92.
Definition REG_DIG_P3_MSB : Z := 0x93.
Definition REG_DIG_P4_LSB : Z := 0x94.
Definition REG_DIG_P4_MSB : Z := 0x95.
Definition REG_DIG_P5_LSB : Z := 0x96.
Definition REG_DIG_P5_MSB : Z := 0x97.
Definition REG_DIG_P6_LSB : Z := 0x98.
Definition REG_DIG_P6_MSB : Z := 0x99.
Definition REG_DIG_P7_LSB : Z := 0x9A.
Definition REG_DIG_P7_MSB : Z := 0x9B.
Definition REG_DIG_P8_LSB : Z := 0x9C.
Definition REG_DIG_P8_MSB : Z := 0x9D.
Definition REG_DIG_P9_LSB : Z := 0x9E.
Definition REG_DIG_P9_MSB : Z := 0x9F.

Definition BMP280_WRITE_MODE : Z := 0xFE.
Definition BMP280_READ_MODE : Z := 0xFF.

(* ================================================================== *)
(** ** Calibration record (lines 79-95)

    Twelve 16-bit members in declaration order: no padding, member [k] at
    byte offset [2k]. *)

Record bmp280_calib_param : Type := {
  dig_t1 : Z;   (* uint16_t *)
  dig_t2 : Z;   (* int16_t *)
  dig_t3 : Z;
  dig_p1 : Z;   (* uint16_t *)
  dig_p2 : Z;
  dig_p3 : Z;
  dig_p4 : Z;
  dig_p5 : Z;
  dig_p6 : Z;
  dig_p7 : Z;
  dig_p8 : Z;
  dig_p9 : Z
}.

(** [params->member] for a pointer [params]. *)
Definition get_dig_t1 (m : mem) (params : Z) : Z := load_u16 m params.
Definition get_dig_t2 (m : mem) (params : Z) : Z := load_i16 m (params + 2).
Definition get_dig_t3 (m : mem) (params : Z) : Z := load_i16 m (params + 4).
Definition get_dig_p1 (m : mem) (params : Z) : Z := load_u16 m (params + 6).
Definition get_dig_p2 (m : mem) (params : Z) : Z := load_i16 m (params + 8).
Definition get_dig_p3 (m : mem) (params : Z) : Z := load_i16 m (params + 10).
Definition get_dig_p4 (m : mem) (params : Z) : Z := load_i16 m (params + 12).
Definition get_dig_p5 (m : mem) (params : Z) : Z := load_i16 m (params + 14).
Definition get_dig_p6 (m : mem) (params : Z) : Z := load_i16 m (params + 16).
Definition get_dig_p7 (m : mem) (params : Z) : Z := load_i16 m (params + 18).
Definition get_dig_p8 (m : mem) (params : Z) : Z := load_i16 m (params + 20).
Definition get_dig_p9 (m : mem) (params : Z) : Z := load_i16 m (params + 22).

(** The whole object a pointer designates. *)
Definition calib_at (m : mem) (params : Z) : bmp280_calib_param :=
  {| dig_t1 := get_dig_t1 m params; dig_t2 := get_dig_t2 m params;
     dig_t3 := get_dig_t3 m params; dig_p1 := get_dig_p1 m params;
     dig_p2 := get_dig_p2 m params; dig_p3 := get_dig_p3 m params;
     dig_p4 := get_dig_p4 m params; dig_p5 := get_dig_p5 m params;
     dig_p6 := get_dig_p6 m params; dig_p7 := get_dig_p7 m params;
     dig_p8 := get_dig_p8 m params; dig_p9 := get_dig_p9 m params |}.

Definition store_calib (m : mem) (params : Z) (c : bmp280_calib_param) : mem :=
  let m := store16 m params (dig_t1 c) in
  let m := store16 m (params + 2) (dig_t2 c) in
  let m := store16 m (params + 4) (dig_t3 c) in
  let m := store16 m (params + 6) (dig_p1 c) in
  let m := store16 m (params + 8) (dig_p2 c) in
  let m := store16 m (params + 10) (dig_p3 c) in
  let m := store16 m (params + 12) (dig_p4 c) in
  let m := store16 m (params + 14) (dig_p5 c) in
  let m := store16 m (params + 16) (dig_p6 c) in
  let m := store16 m (params + 18) (dig_p7 c) in
  let m := store16 m (params + 20) (dig_p8 c) in
  store16 m (params + 22) (dig_p9 c).

(* ================================================================== *)
(** ** Program state *)

(** Memory, the bus, and the values handed to [printf] (before their
    conversion to [float]). *)
Record world : Type := {
  w_mem : mem;
  w_bus : i2c_bus;
  w_out : list (Z * Z)
}.

(** Where a callee keeps the two pointer arguments whose address it takes. *)
Record arg_slots : Type := {
  slot_temp : Z;
  slot_params : Z
}.

(** Addresses of the automatic objects of [main] and of its callees. *)
Record layout : Type := {
  main_params : Z;      (* struct bmp280_calib_param params; *)
  main_temp : Z;        (* int32_t temp; *)
  main_pressure : Z;    (* int32_t pressure; *)
  convert_temp_slots : arg_slots;
  convert_pressure_slots : arg_slots
}.

(** A callee's pointer parameters [temp] and [params] become objects of its
    own frame. *)
Definition enter_frame (sl : arg_slots) (m : mem) (temp params : Z) : mem :=
  store32 (store32 m (slot_temp sl) temp) (slot_params sl) params.

(* ================================================================== *)
(** ** The driver *)

(** Lines 98-116. *)
Definition bmp280_init (w : world) : world :=
  let reg_config_val := u8 (Z.land (Z.lor (Z.shiftl 0x04 5) (Z.shiftl 0x05 2)) 0xFC) in
  let buf := [byte_of_Z REG_CONFIG; byte_of_Z reg_config_val] in
  let b := i2c_write_blocking (w_bus w) (Z.land addr BMP280_WRITE_MODE) buf false in
  let reg_ctrl_meas_val := u8 (Z.lor (Z.lor (Z.shiftl 0x01 5) (Z.shiftl 0x03 2)) 0x03) in
  let buf := [byte_of_Z REG_CTRL_MEAS; byte_of_Z reg_ctrl_meas_val] in
  let b := i2c_write_blocking b (Z.land addr BMP280_WRITE_MODE) buf false in
  {| w_mem := w_mem w; w_bus := b; w_out := w_out w |}.

(** [(buf[i] << 12) | (buf[i+1] << 4) | (buf[i+2] >> 4)], in [int]. *)
Definition raw20 (buf : list byte) (i : nat) : Z :=
  Z.lor (Z.lor (shl32 (at_index buf i) 12) (shl32 (at_index buf (i + 1)) 4))
        (sar32 (at_index buf (i + 2)) 4).

(** Lines 118-132. *)
Definition bmp280_read_raw (w : world) (temp pressure : Z) : world :=
  let b := i2c_write_blocking (w_bus w) (Z.land addr BMP280_WRITE_MODE)
             [byte_of_Z REG_PRESSURE_MSB] true in
  let '(buf, b) := i2c_read_blocking b (Z.land addr BMP280_READ_MODE) 6 false in
  let m := store32 (w_mem w) pressure (raw20 buf 0) in
  let m := store32 m temp (raw20 buf 3) in
  {| w_mem := m; w_bus := b; w_out := w_out w |}.

(** Lines 134-138. *)
Definition bmp280_reset (w : world) : world :=
  let buf := [byte_of_Z REG_RESET; byte_of_Z 0xB6] in
  let b := i2c_write_blocking (w_bus w) (Z.land addr BMP280_WRITE_MODE) buf false in
  {| w_mem := w_mem w; w_bus := b; w_out := w_out w |}.

(** Lines 140-153. *)
Definition bmp280_convert (m : mem) (temp params : Z) : Z :=
  let var1 :=
    sar32 (mul32 (sub32 (sar32 (load_i32 m temp) 3)
                        (shl32 (get_dig_t1 m params) 1))
                 (get_dig_t2 m params))
          11 in
  let var2 :=
    sar32 (mul32 (sar32 (mul32 (sub32 (sar32 (load_i32 m temp) 4) (get_dig_t1 m params))
                               (sub32 (sar32 (load_i32 m temp) 4) (get_dig_t1 m params)))
                        12)
                 (get_dig_t3 m params))
          14 in
  add32 var1 var2.

(** Lines 155-160.  The call passes [&temp] and [&params]: the addresses of
    the two parameter objects, not the pointers they hold. *)
Definition bmp280_convert_temp (sl : arg_slots) (m : mem) (temp params : Z) : Z :=
  let m := enter_frame sl m temp params in
  let t_fine := bmp280_convert m (slot_temp sl) (slot_params sl) in
  sar32 (add32 (mul32 t_fine 5) 128) 8.

(** Lines 163-174: [var1] as it stands when it is tested against zero. *)
Definition pressure_var1 (m : mem) (params t_fine : Z) : Z :=
  let var1 := sub32 (sar32 t_fine 1) 64000 in
  let var1 :=
    sar32 (add32 (sar32 (mul32 (get_dig_p3 m params)
                               (sar32 (mul32 (sar32 var1 2) (sar32 var1 2)) 13))
                        3)
                 (sar32 (mul32 (get_dig_p2 m params) var1) 1))
          18 in
  sar32 (mul32 (add32 32768 var1) (get_dig_p1 m params)) 15.

(** Lines 167-170: [var2] at the same point. *)
Definition pressure_var2 (m : mem) (params t_fine : Z) : Z :=
  let var1 := sub32 (sar32 t_fine 1) 64000 in
  let var2 := mul32 (sar32 (mul32 (sar32 var1 2) (sar32 var1 2)) 11)
                    (get_dig_p6 m params) in
  let var2 := add32 var2 (shl32 (mul32 var1 (get_dig_p5 m params)) 1) in
  add32 (sar32 var2 2) (shl32 (get_dig_p4 m params) 16).

(** Lines 185-191, from the quotient [converted] on. *)
Definition pressure_finish (m : mem) (params converted : Z) : Z :=
  let var1 :=
    sar32 (mul32 (get_dig_p9 m params)
                 (i32 (ushr32 (umul32 (ushr32 converted 3) (ushr32 converted 3)) 13)))
          12 in
  let var2 := sar32 (mul32 (i32 (ushr32 converted 2)) (get_dig_p8 m params)) 13 in
  let converted :=
    u32 (add32 (i32 converted)
               (sar32 (add32 (add32 var1 var2) (get_dig_p7 m params)) 4)) in
  i32 converted.

(** Lines 162-192.  Same call shape as in [bmp280_convert_temp]. *)
Definition bmp280_convert_pressure (sl : arg_slots) (m : mem)
    (pressure temp params : Z) : option Z :=
  let m := enter_frame sl m temp params in
  let t_fine := bmp280_convert m (slot_temp sl) (slot_params sl) in
  let var1 := pressure_var1 m params t_fine in
  let var2 := pressure_var2 m params t_fine in
  if var1 =? 0 then Some 0
  else
    let converted :=
      umul32 (usub32 (u32 (sub32 1048576 (load_i32 m pressure))) (u32 (sar32 var2 12)))
             3125 in
    match
      (if converted <? 0x80000000
       then udiv32 (ushl32 converted 1) (u32 var1)
       else option_map (fun q => umul32 q 2) (udiv32 converted (u32 var1)))
    with
    | None => None
    | Some converted => Some (pressure_finish m params converted)
    end.

(** Lines 208-220. *)
Definition decode_calib (buf : list byte) : bmp280_calib_param :=
  let unsigned_pair i := u16 (Z.lor (u16 (shl32 (at_index buf (i + 1)) 8)) (at_index buf i)) in
  let signed_pair i := i16 (Z.lor (i16 (shl32 (at_index buf (i + 1)) 8)) (at_index buf i)) in
  {| dig_t1 := unsigned_pair 0%nat;
     dig_t2 := signed_pair 2%nat;
     dig_t3 := signed_pair 4%nat;
     dig_p1 := unsigned_pair 6%nat;
     dig_p2 := signed_pair 8%nat;
     dig_p3 := signed_pair 10%nat;
     dig_p4 := signed_pair 12%nat;
     dig_p5 := signed_pair 14%nat;
     dig_p6 := signed_pair 16%nat;
     dig_p7 := signed_pair 18%nat;
     dig_p8 := signed_pair 20%nat;
     dig_p9 := signed_pair 22%nat |}.

(** Lines 194-221. *)
Definition bmp280_get_calib_params (w : world) (params : Z) : world :=
  let b := i2c_write_blocking (w_bus w) (Z.land addr BMP280_WRITE_MODE)
             [byte_of_Z REG_DIG_T1_LSB] true in
  let '(buf, b) := i2c_read_blocking b (Z.land addr BMP280_READ_MODE)
                     NUM_CALIB_PARAMS false in
  {| w_mem := store_calib (w_mem w) params (decode_calib buf);
     w_bus := b; w_out := w_out w |}.

(** Lines 261-268: one round of the [while (1)] loop. *)
Definition main_loop_body (ly : layout) (w : world) : option world :=
  let w := bmp280_read_raw w (main_temp ly) (main_pressure ly) in
  let converted_temp :=
    bmp280_convert_temp (convert_temp_slots ly) (w_mem w) (main_temp ly) (main_params ly) in
  match bmp280_convert_pressure (convert_pressure_slots ly) (w_mem w)
          (main_pressure ly) (main_temp ly) (main_params ly) with
  | None => None
  | Some converted_pressure =>
      Some {| w_mem := w_mem w; w_bus := w_bus w;
              w_out := w_out w ++ [(converted_temp, converted_pressure)] |}
  end.

Fixpoint main_loop (rounds : nat) (ly : layout) (w : world) : option world :=
  match rounds with
  | O => Some w
  | S k =>
      match main_loop_body ly w with
      | None => None
      | Some w' => main_loop k ly w'
      end
  end.

(** Lines 225-273, on a board with I2C pins, cut after [rounds] rounds of the
    loop.  The SDK set-up calls before [bmp280_init] put nothing on the bus. *)
Definition main (rounds : nat) (ly : layout) (w : world) : option world :=
  let w := bmp280_init w in
  let w := bmp280_get_calib_params w (main_params ly) in
  main_loop rounds ly w.

(* ================================================================== *)
(** ** The compensation formulas as the design document words them

    Section 4.4: shifts on signed values are arithmetic, every intermediate
    is reduced to 32 bits, and an expression is read with C's precedence and
    conversion rules (a cast binds tighter than a shift). *)

Module Spec.

Definition wrap32 (x : Z) : Z := (x + 2 ^ 31) mod 2 ^ 32 - 2 ^ 31.
Definition wrapu32 (x : Z) : Z := x mod 2 ^ 32.
Definition asr (x n : Z) : Z := x / 2 ^ n.
Definition lsl (x n : Z) : Z := wrap32 (x * 2 ^ n).

(** [fine = v1 + v2]. *)
Definition fine (raw_t : Z) (c : bmp280_calib_param) : Z :=
  let t1 := dig_t1 c in
  let t2 := dig_t2 c in
  let t3 := dig_t3 c in
  let v1 := asr (wrap32 (wrap32 (asr raw_t 3 - lsl t1 1) * t2)) 11 in
  let d := wrap32 (asr raw_t 4 - t1) in
  let v2 := asr (wrap32 (asr (wrap32 (d * d)) 12 * t3)) 14 in
  wrap32 (v1 + v2).

(** [temperature_centi_celsius = (fine * 5 + 128) >> 8]. *)
Definition temperature (raw_t : Z) (c : bmp280_calib_param) : Z :=
  asr (wrap32 (wrap32 (fine raw_t c * 5) + 128)) 8.

(** The denominator [v1] after the [((32768 + v1) * p1) >> 15] step. *)
Definition pressure_v1 (fine : Z) (c : bmp280_calib_param) : Z :=
  let v1 := wrap32 (asr fine 1 - 64000) in
  let sq := wrap32 (asr v1 2 * asr v1 2) in
  let v1 := asr (wrap32 (asr (wrap32 (dig_p3 c * asr sq 13)) 3
                         + asr (wrap32 (dig_p2 c * v1)) 1)) 18 in
  asr (wrap32 (wrap32 (32768 + v1) * dig_p1 c)) 15.

Definition pressure_v2 (fine : Z) (c : bmp280_calib_param) : Z :=
  let v1 := wrap32 (asr fine 1 - 64000) in
  let sq := wrap32 (asr v1 2 * asr v1 2) in
  let v2 := wrap32 (asr sq 11 * dig_p6 c) in
  let v2 := wrap32 (v2 + lsl (wrap32 (v1 * dig_p5 c)) 1) in
  wrap32 (asr v2 2 + lsl (dig_p4 c) 16).

(** The two readings of the squared term of the [p9] line. *)
Definition square_cast_then_shift (p : Z) : Z :=
  asr (wrap32 (wrapu32 (asr p 3 * asr p 3))) 13.
Definition square_shift_then_cast (p : Z) : Z :=
  wrap32 (asr (wrapu32 (asr p 3 * asr p 3)) 13).

(** [p] after the division step, for a non-zero denominator [v1]. *)
Definition pressure_quotient (v1 v2 raw_p : Z) : Z :=
  let p := wrapu32 (wrapu32 (wrapu32 (1048576 - raw_p) - wrapu32 (asr v2 12)) * 3125) in
  if p <? 0x80000000
  then wrapu32 (p * 2) / wrapu32 v1
  else wrapu32 (p / wrapu32 v1 * 2).

(** The last three lines, with the squared term left open. *)
Definition pressure_tail (square : Z -> Z) (p : Z) (c : bmp280_calib_param) : Z :=
  let v1 := asr (wrap32 (dig_p9 c * square p)) 12 in
  let v2 := asr (wrap32 (wrap32 (asr p 2) * dig_p8 c)) 13 in
  wrapu32 (wrap32 p + asr (wrap32 (wrap32 (v1 + v2) + dig_p7 c)) 4).

(** The pressure pipeline; the result is the unsigned 32-bit [p]. *)
Definition pressure_with (square : Z -> Z) (fine raw_p : Z)
    (c : bmp280_calib_param) : Z :=
  let v1 := pressure_v1 fine c in
  let v2 := pressure_v2 fine c in
  if v1 =? 0 then 0
  else pressure_tail square (pressure_quotient v1 v2 raw_p) c.

(** As written: [(int32)((p >> 3) * (p >> 3)) >> 13]. *)
Definition pressure (raw_p raw_t : Z) (c : bmp280_calib_param) : Z :=
  pressure_with square_cast_then_shift (fine raw_t c) raw_p c.

End Spec.

(** The worked example of the sensor's data sheet. *)
Definition datasheet_calib : bmp280_calib_param :=
  {| dig_t1 := 27504; dig_t2 := 26435; dig_t3 := -1000;
     dig_p1 := 36477; dig_p2 := -10685; dig_p3 := 3024; dig_p4 := 2855;
     dig_p5 := 140; dig_p6 := -7; dig_p7 := 15500; dig_p8 := -14600;
     dig_p9 := 6000 |}.

(* ================================================================== *)
(** ** Concrete states used in the examples *)

Definition zero_mem : mem := fun _ => x00.

(** Stack addresses in the RP2040's SRAM; in each callee the slot of
    [params] sits right below the slot of [temp]. *)
Definition pico_layout : layout :=
  {| main_params := 0x20041FD0;
     main_temp := 0x20041FE8;
     main_pressure := 0x20041FEC;
     convert_temp_slots := {| slot_temp := 0x20041FB8; slot_params := 0x20041FB4 |};
     convert_pressure_slots := {| slot_temp := 0x20041FB8; slot_params := 0x20041FB4 |} |}.

(** The objects of [main] filled with a calibration and one raw sample. *)
Definition mem_with (ly : layout) (c : bmp280_calib_param) (raw_t raw_p : Z) : mem :=
  store32 (store32 (store_calib zero_mem (main_params ly) c) (main_temp ly) raw_t)
          (main_pressure ly) raw_p.

(** The temperature coefficients that a read through [&params] finds: the
    two halves of the pointer, then whatever lies behind its slot. *)
Definition pointer_bits_calib (params behind : Z) : bmp280_calib_param :=
  {| dig_t1 := u16 params; dig_t2 := i16 (Z.shiftr params 16); dig_t3 := behind;
     dig_p1 := 0; dig_p2 := 0; dig_p3 := 0; dig_p4 := 0; dig_p5 := 0;
     dig_p6 := 0; dig_p7 := 0; dig_p8 := 0; dig_p9 := 0 |}.

(** The two argument slots of a callee do not overlap. *)
Definition slots_apart (sl : arg_slots) : Prop :=
  slot_temp sl + 4 <= slot_params sl \/ slot_params sl + 4 <= slot_temp sl.

(** The [n] bytes at [a] lie outside both argument slots. *)
Definition outside_slots (sl : arg_slots) (a n : Z) : Prop :=
  (a + n <= slot_temp sl \/ slot_temp sl + 4 <= a) /\
  (a + n <= slot_params sl \/ slot_params sl + 4 <= a).



(** The objects of [main] holding the data-sheet example. *)
Definition datasheet_mem : mem := mem_with pico_layout datasheet_calib 519888 415148.

(** The data-sheet calibration with [dig_p1] cleared. *)
Definition degenerate_calib : bmp280_calib_param :=
  {| dig_t1 := 27504; dig_t2 := 26435; dig_t3 := -1000;
     dig_p1 := 0; dig_p2 := -10685; dig_p3 := 3024; dig_p4 := 2855;
     dig_p5 := 140; dig_p6 := -7; dig_p7 := 15500; dig_p8 := -14600;
     dig_p9 := 6000 |}.

Definition degenerate_mem : mem := mem_with pico_layout degenerate_calib 519888 415148.


(** A sensor that answers every read with the same bytes. *)
Definition constant_sensor (bytes : list byte) : list i2c_txn -> nat -> byte :=
  fun _ i => nth i bytes x00.

Definition world_with_sensor (bytes : list byte) : world :=
  {| w_mem := zero_mem;
     w_bus := {| sensor := constant_sensor bytes; i2c_trace := [] |};
     w_out := [] |}.

(** The sensor of the document's decoding example, and one that saturates
    every field. *)
Definition example_world : world := world_with_sensor [xab; xcd; xe0; x12; x34; x50].
Definition saturated_world : world := world_with_sensor [xff; xff; xff; xff; xff; xff].

(** The six bytes that the read in [bmp280_read_raw] leaves in [buf]. *)
Definition sample_buffer (w : world) : list byte :=
  fst (i2c_read_blocking
         (i2c_write_blocking (w_bus w) (Z.land addr BMP280_WRITE_MODE)
            [byte_of_Z REG_PRESSURE_MSB] true)
         (Z.land addr BMP280_READ_MODE) 6 false).

(** The 24 bytes that the read in [bmp280_get_calib_params] leaves in [buf]. *)
Definition calib_buffer (w : world) : list byte :=
  fst (i2c_read_blocking
         (i2c_write_blocking (w_bus w) (Z.land addr BMP280_WRITE_MODE)
            [byte_of_Z REG_DIG_T1_LSB] true)
         (Z.land addr BMP280_READ_MODE) NUM_CALIB_PARAMS false).

(** Member number [n] of the calibration record, in declaration order. *)
Definition coefficient (c : bmp280_calib_param) (n : nat) : Z :=
  match n with
  | 0%nat => dig_t1 c
  | 1%nat => dig_t2 c
  | 2%nat => dig_t3 c
  | 3%nat => dig_p1 c
  | 4%nat => dig_p2 c
  | 5%nat => dig_p3 c
  | 6%nat => dig_p4 c
  | 7%nat => dig_p5 c
  | 8%nat => dig_p6 c
  | 9%nat => dig_p7 c
  | 10%nat => dig_p8 c
  | 11%nat => dig_p9 c
  | _ => 0
  end.

(** [dig_t1] and [dig_p1] are the two [uint16_t] members. *)
Definition unsigned_member (n : nat) : bool := Nat.eqb n 0 || Nat.eqb n 3.

(** The calibration of the data-sheet example as its 24 register bytes. *)
Definition calib_bytes_example : list byte :=
  [x70; x6b; x43; x67; x18; xfc; x7d; x8e; x43; xd6; xd0; x0b;
   x27; x0b; x8c; x00; xf9; xff; x8c; x3c; xf8; xc6; x70; x17].

(** A byte written most significant bit first, as in [0b100_101_00]. *)
Definition byte_of_bits (bits : list bool) : Z :=
  fold_left (fun acc b => 2 * acc + Z.b2z b) bits 0.

(** The calibration registers and the ADC registers, in address order. *)
Definition calibration_registers : list Z :=
  [REG_DIG_T1_LSB; REG_DIG_T1_MSB; REG_DIG_T2_LSB; REG_DIG_T2_MSB;
   REG_DIG_T3_LSB; REG_DIG_T3_MSB; REG_DIG_P1_LSB; REG_DIG_P1_MSB;
   REG_DIG_P2_LSB; REG_DIG_P2_MSB; REG_DIG_P3_LSB; REG_DIG_P3_MSB;
   REG_DIG_P4_LSB; REG_DIG_P4_MSB; REG_DIG_P5_LSB; REG_DIG_P5_MSB;
   REG_DIG_P6_LSB; REG_DIG_P6_MSB; REG_DIG_P7_LSB; REG_DIG_P7_MSB;
   REG_DIG_P8_LSB; REG_DIG_P8_MSB; REG_DIG_P9_LSB; REG_DIG_P9_MSB].

Definition adc_registers : list Z :=
  [REG_PRESSURE_MSB; REG_PRESSURE_LSB; REG_PRESSURE_XLSB;
   REG_TEMP_MSB; REG_TEMP_LSB; REG_TEMP_XLSB].

(** Bus traffic of the three bus-facing functions. *)
Definition init_txns : list i2c_txn :=
  [I2cWrite 0x76 [xf5; x94] false; I2cWrite 0x76 [xf4; x2f] false].

Definition calib_txns : list i2c_txn :=
  [I2cWrite 0x76 [x88] true; I2cRead 0x76 24 false].

Definition sample_txns : list i2c_txn :=
  [I2cWrite 0x76 [xf7] true; I2cRead 0x76 6 false].

(** The driver's entry points as operations a caller may issue in any
    order; a poll is one round of the loop of [main]. *)
Inductive controller_op : Type :=
| OpReset
| OpInitialize
| OpCalibrate
| OpPoll.

Definition run_op (ly : layout) (op : controller_op) (w : world) : option world :=
  match op with
  | OpReset => Some (bmp280_reset w)
  | OpInitialize => Some (bmp280_init w)
  | OpCalibrate => Some (bmp280_get_calib_params w (main_params ly))
  | OpPoll => main_loop_body ly w
  end.

Fixpoint run_ops (ly : layout) (ops : list controller_op) (w : world) : option world :=
  match ops with
  | [] => Some w
  | op :: rest =>
      match run_op ly op w with
      | None => None
      | Some w' => run_ops ly rest w'
      end
  end.

(** Bus traffic of [bmp280_reset], and of each operation. *)
Definition reset_txns : list i2c_txn := [I2cWrite 0x76 [xe0; xb6] false].

Definition op_txns (op : controller_op) : list i2c_txn :=
  match op with
  | OpReset => reset_txns
  | OpInitialize => init_txns
  | OpCalibrate => calib_txns
  | OpPoll => sample_txns
  end.

(** A stretch of bus traffic respects the held-bus discipline: a write either
    releases the bus, or is a one-byte register select that holds it and is
    followed at once by a releasing read from the same device; no read comes
    without its select. *)
Fixpoint held_bus_paired (l : list i2c_txn) : bool :=
  match l with
  | [] => true
  | I2cWrite _ _ false :: rest => held_bus_paired rest
  | I2cWrite dev [_] true :: I2cRead dev' _ false :: rest =>
      (dev =? dev') && held_bus_paired rest
  | _ => false
  end.

(** The callee keeps [params] in the word right below [temp], as a compiler
    that spills the arguments in order lays them out. *)
Definition slots_adjacent (sl : arg_slots) : Prop :=
  slot_temp sl = slot_params sl + 4.

(** Two memories hold the same [n] bytes at [a]. *)
Definition same_bytes (m1 m2 : mem) (a n : Z) : Prop :=
  forall x, a <= x < a + n -> m1 x = m2 x.

(* ================================================================== *)
(** * Properties *)

(** ** Fixed-width arithmetic *)

Section FixedFacts.

Lemma pow2_double (w : Z) : 0 < w -> 2 ^ w = 2 * 2 ^ (w - 1).
Proof.
  intro Hw. replace w with (Z.succ (w - 1)) at 1 by lia.
  apply Z.pow_succ_r. lia.
Qed.

Lemma signed_range (w x : Z) :
  0 < w -> - 2 ^ (w - 1) <= signed w x < 2 ^ (w - 1).
Proof.
  intro Hw. unfold signed.
  pose proof (pow2_double w Hw) as Hd.
  assert (0 < 2 ^ (w - 1)) by (apply Z.pow_pos_nonneg; lia).
  pose proof (Z.mod_pos_bound x (2 ^ w) ltac:(lia)) as Hb.
  destruct (Z.ltb_spec (x mod 2 ^ w) (2 ^ (w - 1))); lia.
Qed.

Lemma signed_small (w x : Z) :
  0 < w -> - 2 ^ (w - 1) <= x < 2 ^ (w - 1) -> signed w x = x.
Proof.
  intros Hw Hx. unfold signed.
  pose proof (pow2_double w Hw) as Hd.
  destruct (Z.le_gt_cases 0 x) as [Hpos | Hneg].
  - rewrite Z.mod_small by lia.
    destruct (Z.ltb_spec x (2 ^ (w - 1))); lia.
  - assert (Hm : x mod 2 ^ w = x + 2 ^ w).
    { symmetry. apply Z.mod_unique with (q := -1); lia. }
    rewrite Hm.
    destruct (Z.ltb_spec (x + 2 ^ w) (2 ^ (w - 1))); lia.
Qed.

Lemma signed_mod (w x : Z) : 0 < w -> signed w (x mod 2 ^ w) = signed w x.
Proof.
  intro Hw. unfold signed. rewrite Z.mod_mod; [reflexivity|].
  apply Z.pow_nonzero; lia.
Qed.

Lemma signed_congr (w a b : Z) :
  a mod 2 ^ w = b mod 2 ^ w -> signed w a = signed w b.
Proof. intro H. unfold signed. rewrite H. reflexivity. Qed.

Lemma mod_signed (w x : Z) : 0 < w -> signed w x mod 2 ^ w = x mod 2 ^ w.
Proof.
  intro Hw. unfold signed.
  assert (Hnz : 2 ^ w <> 0) by (apply Z.pow_nonzero; lia).
  destruct (Z.ltb_spec (x mod 2 ^ w) (2 ^ (w - 1))).
  - apply Z.mod_mod; assumption.
  - replace (x mod 2 ^ w - 2 ^ w) with (x mod 2 ^ w + (-1) * 2 ^ w) by lia.
    rewrite Z.mod_add by assumption. apply Z.mod_mod; assumption.
Qed.

Lemma signed_wrap (w x : Z) :
  0 < w -> signed w x = (x + 2 ^ (w - 1)) mod 2 ^ w - 2 ^ (w - 1).
Proof.
  intro Hw. unfold signed.
  pose proof (pow2_double w Hw) as Hd.
  assert (0 < 2 ^ (w - 1)) by (apply Z.pow_pos_nonneg; lia).
  pose proof (Z.mod_pos_bound x (2 ^ w) ltac:(lia)) as Hb.
  pose proof (Z.div_mod x (2 ^ w) ltac:(lia)) as Hx.
  destruct (Z.ltb_spec (x mod 2 ^ w) (2 ^ (w - 1))).
  - rewrite <- (Z.mod_unique (x + 2 ^ (w - 1)) (2 ^ w) (x / 2 ^ w)
                  (x mod 2 ^ w + 2 ^ (w - 1))); lia.
  - rewrite <- (Z.mod_unique (x + 2 ^ (w - 1)) (2 ^ w) (x / 2 ^ w + 1)
                  (x mod 2 ^ w - 2 ^ (w - 1))); lia.
Qed.

Lemma i32_range (x : Z) : - 2 ^ 31 <= i32 x < 2 ^ 31.
Proof. apply (signed_range 32). lia. Qed.

Lemma i16_range (x : Z) : - 2 ^ 15 <= i16 x < 2 ^ 15.
Proof. apply (signed_range 16). lia. Qed.

Lemma u32_range (x : Z) : 0 <= u32 x < 2 ^ 32.
Proof. apply Z.mod_pos_bound. lia. Qed.

Lemma u16_range (x : Z) : 0 <= u16 x < 2 ^ 16.
Proof. apply Z.mod_pos_bound. lia. Qed.

Lemma i32_small (x : Z) : - 2 ^ 31 <= x < 2 ^ 31 -> i32 x = x.
Proof. apply (signed_small 32). lia. Qed.

Lemma i16_small (x : Z) : - 2 ^ 15 <= x < 2 ^ 15 -> i16 x = x.
Proof. apply (signed_small 16). lia. Qed.

Lemma u32_i32 (x : Z) : u32 (i32 x) = u32 x.
Proof. apply (mod_signed 32). lia. Qed.

Lemma i32_u32 (x : Z) : i32 (u32 x) = i32 x.
Proof. apply (signed_mod 32). lia. Qed.

Lemma i32_wrap32 (x : Z) : i32 x = Spec.wrap32 x.
Proof. apply (signed_wrap 32). lia. Qed.

Lemma sar32_asr (x n : Z) : 0 <= n -> sar32 x n = Spec.asr x n.
Proof. intro Hn. apply Z.shiftr_div_pow2. assumption. Qed.

Lemma shl32_lsl (x n : Z) : 0 <= n -> shl32 x n = Spec.lsl x n.
Proof.
  intro Hn. unfold shl32, Spec.lsl.
  rewrite Z.shiftl_mul_pow2 by assumption. apply i32_wrap32.
Qed.

(** An arithmetic right shift keeps a value inside the 32-bit range. *)
Lemma sar32_range (x n : Z) :
  0 <= n -> - 2 ^ 31 <= x < 2 ^ 31 -> - 2 ^ 31 <= sar32 x n < 2 ^ 31.
Proof.
  intros Hn Hx. unfold sar32. rewrite Z.shiftr_div_pow2 by assumption.
  assert (Hp : 0 < 2 ^ n) by (apply Z.pow_pos_nonneg; lia).
  split.
  - apply Z.div_le_lower_bound; [assumption|]. nia.
  - apply Z.div_lt_upper_bound; [assumption|]. nia.
Qed.

(** A non-zero [int32_t] stays non-zero when converted to [uint32_t]. *)
Lemma u32_nonzero (x : Z) : - 2 ^ 31 <= x < 2 ^ 31 -> x <> 0 -> u32 x <> 0.
Proof.
  intros Hx Hnz. unfold u32, unsigned.
  destruct (Z.le_gt_cases 0 x).
  - rewrite Z.mod_small by lia. assumption.
  - rewrite <- (Z.mod_unique x (2 ^ 32) (-1) (x + 2 ^ 32)); lia.
Qed.

End FixedFacts.

(* ================================================================== *)
(** ** Compensation engine: fine temperature *)

Ltac to_spec_ops :=
  unfold add32, sub32, mul32, usub32, umul32, ushl32, ushr32;
  repeat rewrite i32_wrap32;
  repeat rewrite sar32_asr by lia;
  repeat rewrite shl32_lsl by lia.

(** [bmp280_convert] is the fine-temperature formula applied to the
    objects its two arguments point to. *)
Lemma bmp280_convert_spec (m : mem) (temp params : Z) :
  bmp280_convert m temp params = Spec.fine (load_i32 m temp) (calib_at m params).
Proof.
  unfold bmp280_convert, Spec.fine. cbn [calib_at dig_t1 dig_t2 dig_t3].
  to_spec_ops. reflexivity.
Qed.

(** C1. For every raw temperature and every calibration parameter set held
    in memory, [bmp280_convert] returns exactly [v1 + v2] with
    [v1 = ((raw_t >> 3) - (dig_t1 << 1)) * dig_t2 >> 11] and
    [v2 = (((raw_t >> 4) - dig_t1) * ((raw_t >> 4) - dig_t1) >> 12) * dig_t3 >> 14],
    the shifts arithmetic and every intermediate wrapped to signed 32 bits. *)
Theorem bmp280_convert_fine (m : mem) (temp params : Z) :
  bmp280_convert m temp params
  = (let raw_t := load_i32 m temp in
     let t1 := dig_t1 (calib_at m params) in
     let t2 := dig_t2 (calib_at m params) in
     let t3 := dig_t3 (calib_at m params) in
     let v1 :=
       Spec.asr (Spec.wrap32 (Spec.wrap32 (Spec.asr raw_t 3 - Spec.lsl t1 1) * t2)) 11 in
     let v2 :=
       Spec.asr
         (Spec.wrap32
            (Spec.asr
               (Spec.wrap32
                  (Spec.wrap32 (Spec.asr raw_t 4 - t1) * Spec.wrap32 (Spec.asr raw_t 4 - t1)))
               12 * t3))
         14 in
     Spec.wrap32 (v1 + v2)).
Proof.
  unfold bmp280_convert. cbn [calib_at dig_t1 dig_t2 dig_t3]. cbv zeta.
  to_spec_ops. reflexivity.
Qed.

(** The data-sheet example: raw temperature 519888 gives [t_fine = 128422]. *)
Example spec_fine_datasheet : Spec.fine 519888 datasheet_calib = 128422.
Proof. vm_compute. reflexivity. Qed.

(* ================================================================== *)
(** ** Memory *)

Section MemoryFacts.

Lemma byte_to_Z_range (b : byte) : 0 <= byte_to_Z b < 256.
Proof.
  unfold byte_to_Z. pose proof (Byte.to_N_bounded b). lia.
Qed.

Lemma byte_to_of_Z (z : Z) : byte_to_Z (byte_of_Z z) = z mod 256.
Proof.
  unfold byte_to_Z, byte_of_Z.
  pose proof (Z.mod_pos_bound z 256 ltac:(lia)) as Hb.
  destruct (Byte.of_N (Z.to_N (z mod 256))) as [b|] eqn:E.
  - apply Byte.to_of_N in E. rewrite E. apply Z2N.id. lia.
  - apply Byte.of_N_None_iff in E. lia.
Qed.

Lemma byte_of_to_Z (b : byte) : byte_of_Z (byte_to_Z b) = b.
Proof.
  unfold byte_of_Z. rewrite Z.mod_small by apply byte_to_Z_range.
  unfold byte_to_Z. rewrite N2Z.id, Byte.of_to_N. reflexivity.
Qed.

Lemma store8_same (m : mem) (a v : Z) : store8 m a v a = byte_of_Z v.
Proof. unfold store8. rewrite Z.eqb_refl. reflexivity. Qed.

Lemma store8_other (m : mem) (a b v : Z) : a <> b -> store8 m b v a = m a.
Proof.
  intro H. unfold store8. destruct (Z.eqb_spec a b); [contradiction|reflexivity].
Qed.

Lemma store16_other (m : mem) (a b v : Z) :
  a < b \/ b + 2 <= a -> store16 m b v a = m a.
Proof. intro H. unfold store16. rewrite !store8_other by lia. reflexivity. Qed.

Lemma store32_other (m : mem) (a b v : Z) :
  a < b \/ b + 4 <= a -> store32 m b v a = m a.
Proof. intro H. unfold store32. rewrite !store16_other by lia. reflexivity. Qed.

(** Two halves of [k] bits put back together. *)
Lemma lor_halves (v k : Z) :
  0 <= k ->
  Z.lor (v mod 2 ^ k) (Z.shiftl (Z.shiftr v k mod 2 ^ k) k) = v mod 2 ^ (k + k).
Proof.
  intro Hk. apply Z.bits_inj'. intros i Hi.
  rewrite Z.lor_spec, Z.shiftl_spec by assumption.
  rewrite (Z.testbit_mod_pow2 v k), (Z.testbit_mod_pow2 v (k + k)) by lia.
  destruct (Z.ltb_spec i k) as [Hlo | Hhi].
  - rewrite (Z.testbit_neg_r _ (i - k)) by lia.
    destruct (Z.ltb_spec i (k + k)); [|lia].
    rewrite orb_false_r. reflexivity.
  - rewrite Z.testbit_mod_pow2, Z.shiftr_spec by lia.
    replace (i - k + k) with i by lia. cbn [andb orb].
    destruct (Z.ltb_spec (i - k) k), (Z.ltb_spec i (k + k)); try lia; reflexivity.
Qed.

Lemma load_u16_store16_same (m : mem) (a v : Z) :
  load_u16 (store16 m a v) a = u16 v.
Proof.
  unfold load_u16, load8, store16.
  rewrite store8_other, !store8_same, !byte_to_of_Z by lia.
  apply (lor_halves v 8). lia.
Qed.

Lemma load_u16_store16_other (m : mem) (a b v : Z) :
  a + 2 <= b \/ b + 2 <= a -> load_u16 (store16 m b v) a = load_u16 m a.
Proof.
  intro H. unfold load_u16, load8. rewrite !store16_other by lia. reflexivity.
Qed.

Lemma load_u16_store32_other (m : mem) (a b v : Z) :
  a + 2 <= b \/ b + 4 <= a -> load_u16 (store32 m b v) a = load_u16 m a.
Proof.
  intro H. unfold load_u16, load8. rewrite !store32_other by lia. reflexivity.
Qed.

Lemma load_u32_store32_same (m : mem) (a v : Z) :
  load_u32 (store32 m a v) a = u32 v.
Proof.
  unfold load_u32, store32.
  rewrite load_u16_store16_other, !load_u16_store16_same by lia.
  apply (lor_halves v 16). lia.
Qed.

Lemma load_u32_store32_other (m : mem) (a b v : Z) :
  a + 4 <= b \/ b + 4 <= a -> load_u32 (store32 m b v) a = load_u32 m a.
Proof.
  intro H. unfold load_u32. rewrite !load_u16_store32_other by lia. reflexivity.
Qed.

Lemma load_u32_store16_other (m : mem) (a b v : Z) :
  a + 4 <= b \/ b + 2 <= a -> load_u32 (store16 m b v) a = load_u32 m a.
Proof.
  intro H. unfold load_u32. rewrite !load_u16_store16_other by lia. reflexivity.
Qed.

Lemma load_i32_store32_same (m : mem) (a v : Z) :
  load_i32 (store32 m a v) a = i32 v.
Proof. unfold load_i32. rewrite load_u32_store32_same. apply i32_u32. Qed.

Lemma load_i32_store32_other (m : mem) (a b v : Z) :
  a + 4 <= b \/ b + 4 <= a -> load_i32 (store32 m b v) a = load_i32 m a.
Proof. intro H. unfold load_i32. rewrite load_u32_store32_other by lia. reflexivity. Qed.

Lemma load_i16_store16_same (m : mem) (a v : Z) :
  load_i16 (store16 m a v) a = i16 v.
Proof.
  unfold load_i16. rewrite load_u16_store16_same. apply (signed_mod 16). lia.
Qed.

Lemma load_i16_store16_other (m : mem) (a b v : Z) :
  a + 2 <= b \/ b + 2 <= a -> load_i16 (store16 m b v) a = load_i16 m a.
Proof. intro H. unfold load_i16. rewrite load_u16_store16_other by lia. reflexivity. Qed.

Lemma load_i16_store32_other (m : mem) (a b v : Z) :
  a + 2 <= b \/ b + 4 <= a -> load_i16 (store32 m b v) a = load_i16 m a.
Proof. intro H. unfold load_i16. rewrite load_u16_store32_other by lia. reflexivity. Qed.

(** Loads only look at the bytes they cover. *)
Lemma load_u16_ext (m1 m2 : mem) (a : Z) :
  (forall x, a <= x < a + 2 -> m1 x = m2 x) -> load_u16 m1 a = load_u16 m2 a.
Proof.
  intro H. unfold load_u16, load8. rewrite (H a), (H (a + 1)) by lia. reflexivity.
Qed.

Lemma load_i32_ext (m1 m2 : mem) (a : Z) :
  (forall x, a <= x < a + 4 -> m1 x = m2 x) -> load_i32 m1 a = load_i32 m2 a.
Proof.
  intro H. unfold load_i32, load_u32.
  rewrite (load_u16_ext m1 m2 a), (load_u16_ext m1 m2 (a + 2));
    [reflexivity | intros; apply H; lia ..].
Qed.

End MemoryFacts.

(* ================================================================== *)
(** ** Compensation engine: temperature *)

Section Temperature.

Lemma load_u16_store32_low (m : mem) (a v : Z) :
  load_u16 (store32 m a v) a = u16 v.
Proof.
  unfold store32. rewrite load_u16_store16_other by lia.
  apply load_u16_store16_same.
Qed.

Lemma load_u16_store32_high (m : mem) (a v : Z) :
  load_u16 (store32 m a v) (a + 2) = u16 (Z.shiftr v 16).
Proof. unfold store32. apply load_u16_store16_same. Qed.

(** What [bmp280_convert] finds behind [&temp] and [&params]. *)
Lemma enter_frame_temp (sl : arg_slots) (m : mem) (temp params : Z) :
  slots_apart sl ->
  load_i32 (enter_frame sl m temp params) (slot_temp sl) = i32 temp.
Proof.
  intro H. unfold enter_frame, slots_apart in *.
  rewrite load_i32_store32_other by lia. apply load_i32_store32_same.
Qed.

Lemma enter_frame_dig_t1 (sl : arg_slots) (m : mem) (temp params : Z) :
  get_dig_t1 (enter_frame sl m temp params) (slot_params sl) = u16 params.
Proof. unfold get_dig_t1, enter_frame. apply load_u16_store32_low. Qed.

Lemma enter_frame_dig_t2 (sl : arg_slots) (m : mem) (temp params : Z) :
  get_dig_t2 (enter_frame sl m temp params) (slot_params sl)
  = i16 (Z.shiftr params 16).
Proof.
  unfold get_dig_t2, load_i16, enter_frame. rewrite load_u16_store32_high.
  apply (signed_mod 16). lia.
Qed.

(** The value [bmp280_convert_temp] returns is the temperature formula
    applied to the bits of its two pointer arguments; the raw sample and
    the calibration they point to never enter it. *)
Lemma bmp280_convert_temp_reads_pointers (sl : arg_slots) (m : mem)
    (temp params : Z) :
  slots_apart sl ->
  bmp280_convert_temp sl m temp params
  = Spec.temperature (i32 temp)
      (pointer_bits_calib params
         (get_dig_t3 (enter_frame sl m temp params) (slot_params sl))).
Proof.
  intro H. unfold bmp280_convert_temp, Spec.temperature.
  rewrite bmp280_convert_spec.
  unfold Spec.fine. cbn [calib_at pointer_bits_calib dig_t1 dig_t2 dig_t3].
  rewrite enter_frame_temp, enter_frame_dig_t1, enter_frame_dig_t2 by assumption.
  to_spec_ops. reflexivity.
Qed.

End Temperature.

(** C2. On the data-sheet example (raw temperature 519888, calibration
    27504 / 26435 / -1000) the formula [(fine * 5 + 128) >> 8] over the fine
    temperature of that sample is 2508, i.e. 25.08 degrees; the value
    [bmp280_convert_temp] returns for it is 6358, because its call hands
    [bmp280_convert] the addresses of its own parameters. *)
Theorem bmp280_convert_temp_datasheet_sample :
  load_i32 datasheet_mem (main_temp pico_layout) = 519888 /\
  calib_at datasheet_mem (main_params pico_layout) = datasheet_calib /\
  Spec.temperature 519888 datasheet_calib = 2508 /\
  bmp280_convert_temp (convert_temp_slots pico_layout) datasheet_mem
    (main_temp pico_layout) (main_params pico_layout) = 6358.
Proof. vm_compute. repeat split; reflexivity. Qed.

(* ================================================================== *)
(** ** Compensation engine: pressure *)

Section Pressure.

Lemma pressure_var1_range (m : mem) (params t_fine : Z) :
  - 2 ^ 31 <= pressure_var1 m params t_fine < 2 ^ 31.
Proof.
  unfold pressure_var1. apply sar32_range; [lia|]. apply i32_range.
Qed.

Lemma pressure_var1_spec (m : mem) (params t_fine : Z) :
  pressure_var1 m params t_fine = Spec.pressure_v1 t_fine (calib_at m params).
Proof.
  unfold pressure_var1, Spec.pressure_v1. cbn [calib_at dig_p1 dig_p2 dig_p3].
  to_spec_ops. reflexivity.
Qed.

Lemma pressure_var2_spec (m : mem) (params t_fine : Z) :
  pressure_var2 m params t_fine = Spec.pressure_v2 t_fine (calib_at m params).
Proof.
  unfold pressure_var2, Spec.pressure_v2. cbn [calib_at dig_p4 dig_p5 dig_p6].
  to_spec_ops. reflexivity.
Qed.

(** A zero [dig_p1] forces the denominator to zero. *)
Lemma pressure_var1_p1_zero (m : mem) (params t_fine : Z) :
  get_dig_p1 m params = 0 -> pressure_var1 m params t_fine = 0.
Proof.
  intro H. unfold pressure_var1. rewrite H.
  unfold mul32. rewrite Z.mul_0_r. reflexivity.
Qed.

Lemma pressure_finish_range (m : mem) (params converted : Z) :
  - 2 ^ 31 <= pressure_finish m params converted < 2 ^ 31.
Proof. unfold pressure_finish. apply i32_range. Qed.

Lemma pressure_finish_spec (m : mem) (params converted : Z) :
  pressure_finish m params converted
  = Spec.wrap32 (Spec.pressure_tail Spec.square_shift_then_cast converted
                   (calib_at m params)).
Proof.
  unfold pressure_finish, Spec.pressure_tail, Spec.square_shift_then_cast.
  cbn [calib_at dig_p7 dig_p8 dig_p9].
  unfold add32 at 1. rewrite u32_i32.
  to_spec_ops. reflexivity.
Qed.

(** The division of lines 180-184 never traps once [var1] is non-zero. *)
Lemma pressure_division_defined (var1 converted : Z) :
  - 2 ^ 31 <= var1 < 2 ^ 31 -> var1 <> 0 ->
  (if converted <? 0x80000000
   then udiv32 (ushl32 converted 1) (u32 var1)
   else option_map (fun q => umul32 q 2) (udiv32 converted (u32 var1)))
  = Some (if converted <? 0x80000000
          then u32 (converted * 2) / u32 var1
          else u32 (converted / u32 var1 * 2)).
Proof.
  intros Hr Hnz. pose proof (u32_nonzero var1 Hr Hnz) as Hu.
  unfold udiv32. destruct (Z.eqb_spec (u32 var1) 0) as [E|_]; [contradiction|].
  destruct (converted <? 0x80000000); cbn [option_map].
  - unfold ushl32. rewrite Z.shiftl_mul_pow2 by lia. reflexivity.
  - reflexivity.
Qed.

(** The whole function in terms of the fine value its call produced. *)
Lemma bmp280_convert_pressure_unfold (sl : arg_slots) (m : mem)
    (pressure temp params : Z) :
  let fm := enter_frame sl m temp params in
  bmp280_convert_pressure sl m pressure temp params
  = Some (Spec.wrap32
            (Spec.pressure_with Spec.square_shift_then_cast
               (bmp280_convert fm (slot_temp sl) (slot_params sl))
               (load_i32 fm pressure) (calib_at fm params))).
Proof.
  intro fm. unfold bmp280_convert_pressure, Spec.pressure_with. fold fm.
  rewrite <- pressure_var1_spec, <- pressure_var2_spec.
  set (t_fine := bmp280_convert fm (slot_temp sl) (slot_params sl)).
  pose proof (pressure_var1_range fm params t_fine) as Hr.
  destruct (Z.eqb_spec (pressure_var1 fm params t_fine) 0) as [E|Hnz].
  - reflexivity.
  - rewrite (pressure_division_defined _ _ Hr Hnz).
    rewrite pressure_finish_spec. unfold Spec.pressure_quotient.
    unfold umul32, usub32, sub32. rewrite u32_i32.
    rewrite sar32_asr by lia.
    unfold u32, unsigned, Spec.wrapu32. reflexivity.
Qed.

Lemma bmp280_convert_pressure_total (sl : arg_slots) (m : mem)
    (pressure temp params : Z) :
  exists v, bmp280_convert_pressure sl m pressure temp params = Some v
            /\ - 2 ^ 31 <= v < 2 ^ 31.
Proof.
  unfold bmp280_convert_pressure.
  set (fm := enter_frame sl m temp params).
  set (t_fine := bmp280_convert fm (slot_temp sl) (slot_params sl)).
  pose proof (pressure_var1_range fm params t_fine) as Hr.
  destruct (Z.eqb_spec (pressure_var1 fm params t_fine) 0) as [E|Hnz].
  - exists 0. split; [reflexivity | lia].
  - rewrite (pressure_division_defined _ _ Hr Hnz).
    eexists. split; [reflexivity | apply pressure_finish_range].
Qed.

End Pressure.

Section PressureFrame.

Lemma enter_frame_load_i32 (sl : arg_slots) (m : mem) (temp params a : Z) :
  outside_slots sl a 4 ->
  load_i32 (enter_frame sl m temp params) a = load_i32 m a.
Proof.
  intros [Ht Hp]. unfold enter_frame.
  rewrite !load_i32_store32_other by lia. reflexivity.
Qed.

Lemma enter_frame_load_u16 (sl : arg_slots) (m : mem) (temp params a : Z) :
  outside_slots sl a 2 ->
  load_u16 (enter_frame sl m temp params) a = load_u16 m a.
Proof.
  intros [Ht Hp]. unfold enter_frame.
  rewrite !load_u16_store32_other by lia. reflexivity.
Qed.

Lemma outside_slots_member (sl : arg_slots) (a n k : Z) :
  outside_slots sl a n -> 0 <= k -> k + 2 <= n -> outside_slots sl (a + k) 2.
Proof. unfold outside_slots. lia. Qed.

Lemma enter_frame_calib_at (sl : arg_slots) (m : mem) (temp params a : Z) :
  outside_slots sl a 24 ->
  calib_at (enter_frame sl m temp params) a = calib_at m a.
Proof.
  intro H.
  assert (H0 : outside_slots sl a 2) by (unfold outside_slots in *; lia).
  unfold calib_at, get_dig_t1, get_dig_t2, get_dig_t3, get_dig_p1, get_dig_p2,
    get_dig_p3, get_dig_p4, get_dig_p5, get_dig_p6, get_dig_p7, get_dig_p8,
    get_dig_p9, load_i16.
  rewrite (enter_frame_load_u16 sl m temp params a) by assumption.
  rewrite !enter_frame_load_u16
    by (apply (outside_slots_member sl a 24); [assumption | lia | lia]).
  reflexivity.
Qed.

End PressureFrame.




(** The data-sheet example through the pipeline with its true fine value:
    100656, a pressure in pascal. *)
Example spec_pressure_datasheet :
  Spec.pressure_with Spec.square_shift_then_cast 128422 415148 datasheet_calib = 100656
  /\ Spec.pressure 415148 519888 datasheet_calib = 100656.
Proof. vm_compute. split; reflexivity. Qed.

(** C4. Whenever the denominator [var1], as it stands after the
    [((32768 + var1) * dig_p1) >> 15] step, is zero, [bmp280_convert_pressure]
    returns the plain value 0: no trap, no error result. *)
Theorem bmp280_convert_pressure_zero_denominator (sl : arg_slots) (m : mem)
    (pressure temp params : Z) :
  pressure_var1 (enter_frame sl m temp params) params
    (bmp280_convert (enter_frame sl m temp params) (slot_temp sl) (slot_params sl)) = 0 ->
  bmp280_convert_pressure sl m pressure temp params = Some 0.
Proof.
  intro H. unfold bmp280_convert_pressure. rewrite H. reflexivity.
Qed.

Lemma bmp280_convert_pressure_zero_denominator_witness :
  bmp280_convert_pressure (convert_pressure_slots pico_layout) degenerate_mem
    (main_pressure pico_layout) (main_temp pico_layout) (main_params pico_layout)
  = Some 0.
Proof.
  apply bmp280_convert_pressure_zero_denominator.
  vm_compute. reflexivity.
Defined.

(** A calibration with [dig_p1 = 0] always takes that exit. *)
Lemma bmp280_convert_pressure_p1_zero (sl : arg_slots) (m : mem)
    (pressure temp params : Z) :
  get_dig_p1 (enter_frame sl m temp params) params = 0 ->
  bmp280_convert_pressure sl m pressure temp params = Some 0.
Proof.
  intro H. unfold bmp280_convert_pressure.
  rewrite pressure_var1_p1_zero by assumption. reflexivity.
Qed.

(** C5. The three compensation functions are total on every memory and
    every pointer argument: each returns a value of the signed 32-bit range,
    and the only division, in [bmp280_convert_pressure], is never reached
    with a zero divisor. *)
Theorem compensation_engine_total (sl : arg_slots) (m : mem)
    (pressure temp params : Z) :
  - 2 ^ 31 <= bmp280_convert m temp params < 2 ^ 31 /\
  - 2 ^ 31 <= bmp280_convert_temp sl m temp params < 2 ^ 31 /\
  exists v, bmp280_convert_pressure sl m pressure temp params = Some v
            /\ - 2 ^ 31 <= v < 2 ^ 31.
Proof.
  split; [|split].
  - unfold bmp280_convert, add32. apply i32_range.
  - unfold bmp280_convert_temp. apply sar32_range; [lia|].
    unfold add32. apply i32_range.
  - apply bmp280_convert_pressure_total.
Qed.

(* ================================================================== *)
(** ** Raw sample reader *)

Section RawSample.

Lemma lor_lt_pow2 (a b n : Z) :
  0 <= n -> 0 <= a < 2 ^ n -> 0 <= b < 2 ^ n -> 0 <= Z.lor a b < 2 ^ n.
Proof.
  intros Hn Ha Hb.
  assert (E : Z.lor a b = Z.lor a b mod 2 ^ n).
  { apply Z.bits_inj'. intros i Hi.
    rewrite Z.testbit_mod_pow2, Z.lor_spec by assumption.
    destruct (Z.ltb_spec i n) as [Hlt | Hge]; [reflexivity|].
    rewrite <- (Z.mod_small a (2 ^ n)), <- (Z.mod_small b (2 ^ n)) by assumption.
    rewrite !Z.mod_pow2_bits_high by lia. reflexivity. }
  rewrite E. apply Z.mod_pos_bound. apply Z.pow_pos_nonneg; lia.
Qed.

Lemma at_index_range (buf : list byte) (i : nat) : 0 <= at_index buf i < 256.
Proof. apply byte_to_Z_range. Qed.

(** Shifting a byte left by at most 12 does not leave the [int] range. *)
Lemma shl32_byte (b n : Z) :
  0 <= b < 256 -> 0 <= n <= 12 -> shl32 b n = Z.shiftl b n.
Proof.
  intros Hb Hn. unfold shl32. apply i32_small.
  rewrite Z.shiftl_mul_pow2 by lia.
  assert (0 < 2 ^ n <= 2 ^ 12).
  { split; [apply Z.pow_pos_nonneg; lia | apply Z.pow_le_mono_r; lia]. }
  nia.
Qed.

Lemma raw20_formula (buf : list byte) (i : nat) :
  raw20 buf i
  = Z.lor (Z.lor (Z.shiftl (at_index buf i) 12) (Z.shiftl (at_index buf (i + 1)) 4))
          (Z.shiftr (at_index buf (i + 2)) 4).
Proof.
  unfold raw20, sar32.
  rewrite !shl32_byte by (try apply at_index_range; lia). reflexivity.
Qed.

Lemma raw20_range (buf : list byte) (i : nat) : 0 <= raw20 buf i < 2 ^ 20.
Proof.
  rewrite raw20_formula.
  pose proof (at_index_range buf i) as H0.
  pose proof (at_index_range buf (i + 1)) as H1.
  pose proof (at_index_range buf (i + 2)) as H2.
  apply lor_lt_pow2; [lia | apply lor_lt_pow2; [lia | |] |].
  - rewrite Z.shiftl_mul_pow2 by lia. lia.
  - rewrite Z.shiftl_mul_pow2 by lia. lia.
  - rewrite Z.shiftr_div_pow2 by lia.
    split; [apply Z.div_pos; lia | apply Z.div_lt_upper_bound; lia].
Qed.

Lemma bmp280_read_raw_mem (w : world) (temp pressure : Z) :
  w_mem (bmp280_read_raw w temp pressure)
  = store32 (store32 (w_mem w) pressure (raw20 (sample_buffer w) 0))
            temp (raw20 (sample_buffer w) 3).
Proof. reflexivity. Qed.

Lemma bmp280_read_raw_temp (w : world) (temp pressure : Z) :
  load_i32 (w_mem (bmp280_read_raw w temp pressure)) temp
  = raw20 (sample_buffer w) 3.
Proof.
  rewrite bmp280_read_raw_mem, load_i32_store32_same.
  apply i32_small. pose proof (raw20_range (sample_buffer w) 3). lia.
Qed.

Lemma bmp280_read_raw_pressure (w : world) (temp pressure : Z) :
  temp + 4 <= pressure \/ pressure + 4 <= temp ->
  load_i32 (w_mem (bmp280_read_raw w temp pressure)) pressure
  = raw20 (sample_buffer w) 0.
Proof.
  intro H.
  rewrite bmp280_read_raw_mem, load_i32_store32_other, load_i32_store32_same by lia.
  apply i32_small. pose proof (raw20_range (sample_buffer w) 0). lia.
Qed.

(** Every six bytes are the buffer of some state. *)
Lemma sample_buffer_any (b0 b1 b2 b3 b4 b5 : byte) :
  sample_buffer (world_with_sensor [b0; b1; b2; b3; b4; b5])
  = [b0; b1; b2; b3; b4; b5].
Proof. reflexivity. Qed.

End RawSample.

(** C7. For every six bytes [b0..b5] the sensor delivers,
    [bmp280_read_raw] stores [(b0 << 12) | (b1 << 4) | (b2 >> 4)] as the raw
    pressure and the same pattern over [b3..b5] as the raw temperature (the
    two destinations being distinct objects). *)
Theorem bmp280_read_raw_decodes (w : world) (temp pressure : Z)
    (b0 b1 b2 b3 b4 b5 : byte) :
  sample_buffer w = [b0; b1; b2; b3; b4; b5] ->
  temp + 4 <= pressure \/ pressure + 4 <= temp ->
  load_i32 (w_mem (bmp280_read_raw w temp pressure)) pressure
  = Z.lor (Z.lor (Z.shiftl (byte_to_Z b0) 12) (Z.shiftl (byte_to_Z b1) 4))
          (Z.shiftr (byte_to_Z b2) 4)
  /\
  load_i32 (w_mem (bmp280_read_raw w temp pressure)) temp
  = Z.lor (Z.lor (Z.shiftl (byte_to_Z b3) 12) (Z.shiftl (byte_to_Z b4) 4))
          (Z.shiftr (byte_to_Z b5) 4).
Proof.
  intros Hbuf Hapart.
  rewrite bmp280_read_raw_pressure, bmp280_read_raw_temp by assumption.
  rewrite !raw20_formula, Hbuf. split; reflexivity.
Qed.

(** The document's example: bytes [AB CD E0 12 34 50]. *)
Lemma bmp280_read_raw_decodes_witness :
  load_i32
    (w_mem (bmp280_read_raw example_world (main_temp pico_layout) (main_pressure pico_layout)))
    (main_pressure pico_layout)
  = Z.lor (Z.lor (Z.shiftl 0xAB 12) (Z.shiftl 0xCD 4)) (Z.shiftr 0xE0 4)
  /\
  load_i32
    (w_mem (bmp280_read_raw example_world (main_temp pico_layout) (main_pressure pico_layout)))
    (main_temp pico_layout)
  = Z.lor (Z.lor (Z.shiftl 0x12 12) (Z.shiftl 0x34 4)) (Z.shiftr 0x50 4).
Proof.
  apply (bmp280_read_raw_decodes example_world
           (main_temp pico_layout) (main_pressure pico_layout)
           xab xcd xe0 x12 x34 x50).
  - reflexivity.
  - left. vm_compute. discriminate.
Defined.

Example raw_sample_example_values :
  Z.lor (Z.lor (Z.shiftl 0xAB 12) (Z.shiftl 0xCD 4)) (Z.shiftr 0xE0 4) = 0xABCDE
  /\ Z.lor (Z.lor (Z.shiftl 0x12 12) (Z.shiftl 0x34 4)) (Z.shiftr 0x50 4) = 0x12345.
Proof. split; reflexivity. Qed.

(** C10. Whatever six bytes the read delivers, the raw pressure and the raw
    temperature that [bmp280_read_raw] stores lie between 0 and [2^20 - 1];
    neither is ever negative. *)
Theorem bmp280_read_raw_range (w : world) (temp pressure : Z) :
  temp + 4 <= pressure \/ pressure + 4 <= temp ->
  0 <= load_i32 (w_mem (bmp280_read_raw w temp pressure)) pressure <= 2 ^ 20 - 1
  /\
  0 <= load_i32 (w_mem (bmp280_read_raw w temp pressure)) temp <= 2 ^ 20 - 1.
Proof.
  intro Hapart.
  rewrite bmp280_read_raw_pressure, bmp280_read_raw_temp by assumption.
  pose proof (raw20_range (sample_buffer w) 0).
  pose proof (raw20_range (sample_buffer w) 3).
  lia.
Qed.

Lemma bmp280_read_raw_range_witness :
  0 <= load_i32
         (w_mem (bmp280_read_raw saturated_world (main_temp pico_layout)
                   (main_pressure pico_layout)))
         (main_pressure pico_layout) <= 2 ^ 20 - 1
  /\
  0 <= load_i32
         (w_mem (bmp280_read_raw saturated_world (main_temp pico_layout)
                   (main_pressure pico_layout)))
         (main_temp pico_layout) <= 2 ^ 20 - 1.
Proof.
  apply (bmp280_read_raw_range saturated_world
           (main_temp pico_layout) (main_pressure pico_layout)).
  left. vm_compute. discriminate.
Defined.

(** The upper bound is reached. *)
Example raw20_all_ones : raw20 [xff; xff; xff] 0 = 2 ^ 20 - 1.
Proof. reflexivity. Qed.

(* ================================================================== *)
(** ** Calibration loader *)

Section Calibration.

Lemma lor_shiftl_add (a b n : Z) :
  0 <= n -> 0 <= b < 2 ^ n -> Z.lor (Z.shiftl a n) b = a * 2 ^ n + b.
Proof.
  intros Hn Hb. rewrite <- (Z.shiftl_mul_pow2 a n) by assumption.
  pose proof (Z.add_lor_land (Z.shiftl a n) b) as Hadd.
  assert (Hland : Z.land (Z.shiftl a n) b = 0).
  { apply Z.bits_inj'. intros i Hi.
    rewrite Z.land_spec, Z.shiftl_spec, Z.bits_0 by assumption.
    destruct (Z.ltb_spec i n) as [Hlt | Hge].
    - rewrite Z.testbit_neg_r by lia. reflexivity.
    - rewrite <- (Z.mod_small b (2 ^ n)) by assumption.
      rewrite Z.mod_pow2_bits_high by lia. apply andb_false_r. }
  lia.
Qed.

(** The 16-bit word of an LSB/MSB pair. *)
Lemma pair_word (lsb msb : Z) :
  0 <= lsb < 256 -> 0 <= msb < 256 ->
  Z.lor (Z.shiftl msb 8) lsb = msb * 256 + lsb.
Proof. intros Hl Hm. rewrite lor_shiftl_add by lia. reflexivity. Qed.

Lemma decode_unsigned_pair (lsb msb : Z) :
  0 <= lsb < 256 -> 0 <= msb < 256 ->
  u16 (Z.lor (u16 (shl32 msb 8)) lsb) = Z.lor (Z.shiftl msb 8) lsb.
Proof.
  intros Hl Hm. rewrite shl32_byte by lia.
  pose proof (pair_word lsb msb Hl Hm) as Hw.
  assert (Hs : Z.shiftl msb 8 = msb * 256) by (rewrite Z.shiftl_mul_pow2 by lia; reflexivity).
  assert (Hu : u16 (Z.shiftl msb 8) = Z.shiftl msb 8).
  { unfold u16, unsigned. apply Z.mod_small. lia. }
  rewrite Hu. unfold u16, unsigned. apply Z.mod_small. lia.
Qed.

(** Casting the shifted MSB to [int16_t] first does not change the low 16
    bits of the pair. *)
Lemma decode_signed_pair (lsb msb : Z) :
  0 <= lsb < 256 -> 0 <= msb < 256 ->
  i16 (Z.lor (i16 (shl32 msb 8)) lsb) = i16 (Z.lor (Z.shiftl msb 8) lsb).
Proof.
  intros Hl Hm. rewrite shl32_byte by lia.
  apply (signed_congr 16). apply Z.bits_inj'. intros i Hi.
  rewrite !Z.testbit_mod_pow2, !Z.lor_spec by lia.
  destruct (Z.ltb_spec i 16) as [Hlt | Hge]; [|reflexivity].
  cbn [andb]. f_equal.
  rewrite <- (Z.mod_pow2_bits_low (i16 (Z.shiftl msb 8)) 16 i) by assumption.
  rewrite (mod_signed 16) by lia.
  apply Z.mod_pow2_bits_low. assumption.
Qed.

Lemma i16_of_word (x : Z) :
  0 <= x < 2 ^ 16 -> i16 x = if x <? 2 ^ 15 then x else x - 2 ^ 16.
Proof.
  intro Hx. unfold i16, signed. rewrite Z.mod_small by assumption. reflexivity.
Qed.

Lemma u16_idem (x : Z) : u16 (u16 x) = u16 x.
Proof. unfold u16, unsigned. apply Z.mod_mod. lia. Qed.

Lemma i16_idem (x : Z) : i16 (i16 x) = i16 x.
Proof. apply i16_small. apply i16_range. Qed.

(** Reading the record back after [store_calib]. *)
Lemma calib_at_store_calib (m : mem) (p : Z) (c : bmp280_calib_param) :
  calib_at (store_calib m p c) p
  = {| dig_t1 := u16 (dig_t1 c); dig_t2 := i16 (dig_t2 c);
       dig_t3 := i16 (dig_t3 c); dig_p1 := u16 (dig_p1 c);
       dig_p2 := i16 (dig_p2 c); dig_p3 := i16 (dig_p3 c);
       dig_p4 := i16 (dig_p4 c); dig_p5 := i16 (dig_p5 c);
       dig_p6 := i16 (dig_p6 c); dig_p7 := i16 (dig_p7 c);
       dig_p8 := i16 (dig_p8 c); dig_p9 := i16 (dig_p9 c) |}.
Proof.
  unfold calib_at, store_calib.
  f_equal;
    unfold get_dig_t1, get_dig_t2, get_dig_t3, get_dig_p1, get_dig_p2,
      get_dig_p3, get_dig_p4, get_dig_p5, get_dig_p6, get_dig_p7,
      get_dig_p8, get_dig_p9;
    rewrite ?load_i16_store16_other, ?load_u16_store16_other by lia;
    first [ apply load_i16_store16_same | apply load_u16_store16_same ].
Qed.

Lemma bmp280_get_calib_params_mem (w : world) (params : Z) :
  w_mem (bmp280_get_calib_params w params)
  = store_calib (w_mem w) params (decode_calib (calib_buffer w)).
Proof. reflexivity. Qed.

(** The record [main] finds after the loader has run. *)
Lemma bmp280_get_calib_params_result (w : world) (params : Z) :
  calib_at (w_mem (bmp280_get_calib_params w params)) params
  = decode_calib (calib_buffer w).
Proof.
  rewrite bmp280_get_calib_params_mem, calib_at_store_calib.
  unfold decode_calib. cbn [dig_t1 dig_t2 dig_t3 dig_p1 dig_p2 dig_p3 dig_p4
    dig_p5 dig_p6 dig_p7 dig_p8 dig_p9].
  rewrite !u16_idem, !i16_idem. reflexivity.
Qed.

(** One member of the decoded record. *)
Lemma decode_calib_coefficient (buf : list byte) (n : nat) :
  (n < 12)%nat ->
  coefficient (decode_calib buf) n
  = if unsigned_member n
    then Z.lor (Z.shiftl (at_index buf (2 * n + 1)) 8) (at_index buf (2 * n))
    else i16 (Z.lor (Z.shiftl (at_index buf (2 * n + 1)) 8) (at_index buf (2 * n))).
Proof.
  intro Hn.
  do 12 (destruct n as [|n];
         [ cbn [coefficient decode_calib unsigned_member Nat.eqb orb Nat.mul Nat.add
                dig_t1 dig_t2 dig_t3 dig_p1 dig_p2 dig_p3 dig_p4 dig_p5 dig_p6
                dig_p7 dig_p8 dig_p9];
           first [ apply decode_unsigned_pair | apply decode_signed_pair ];
           apply at_index_range
         | ]).
  lia.
Qed.

(** Every 24 bytes are the buffer of some state. *)
Lemma calib_buffer_any (bytes : list byte) :
  length bytes = 24%nat -> calib_buffer (world_with_sensor bytes) = bytes.
Proof.
  intro H. do 25 (destruct bytes as [|? bytes]; try discriminate H). reflexivity.
Qed.

End Calibration.

(** C6. For every 24 bytes the sensor delivers, the loader leaves in member
    [n] of the record the pair (byte [2n] as LSB, byte [2n+1] as MSB)
    combined as [(MSB << 8) | LSB]: as it is for the unsigned [dig_t1] and
    [dig_p1], read as two's-complement 16 bits for the other ten, so that a
    pair whose MSB has its top bit set gives a negative coefficient. *)
Theorem bmp280_get_calib_params_decodes (w : world) (params : Z) (n : nat) :
  (n < 12)%nat ->
  coefficient (calib_at (w_mem (bmp280_get_calib_params w params)) params) n
  = (let word := Z.lor (Z.shiftl (at_index (calib_buffer w) (2 * n + 1)) 8)
                       (at_index (calib_buffer w) (2 * n)) in
     if unsigned_member n then word
     else if word <? 2 ^ 15 then word else word - 2 ^ 16)
  /\
  (unsigned_member n = false ->
   128 <= at_index (calib_buffer w) (2 * n + 1) ->
   coefficient (calib_at (w_mem (bmp280_get_calib_params w params)) params) n < 0).
Proof.
  intro Hn.
  rewrite bmp280_get_calib_params_result, decode_calib_coefficient by assumption.
  pose proof (at_index_range (calib_buffer w) (2 * n)) as Hl.
  pose proof (at_index_range (calib_buffer w) (2 * n + 1)) as Hm.
  pose proof (pair_word _ _ Hl Hm) as Hw.
  cbv zeta. split.
  - destruct (unsigned_member n); [reflexivity|].
    apply i16_of_word. lia.
  - intros Hs Hmsb. rewrite Hs, i16_of_word by lia.
    destruct (Z.ltb_spec (Z.lor (Z.shiftl (at_index (calib_buffer w) (2 * n + 1)) 8)
                                (at_index (calib_buffer w) (2 * n))) (2 ^ 15)); lia.
Qed.

(** The third coefficient of the data-sheet example, bytes [18 FC]: -1000. *)
Lemma bmp280_get_calib_params_decodes_witness :
  coefficient
    (calib_at (w_mem (bmp280_get_calib_params (world_with_sensor calib_bytes_example)
                        (main_params pico_layout)))
       (main_params pico_layout)) 2 = -1000
  /\
  coefficient
    (calib_at (w_mem (bmp280_get_calib_params (world_with_sensor calib_bytes_example)
                        (main_params pico_layout)))
       (main_params pico_layout)) 2 < 0.
Proof.
  destruct (bmp280_get_calib_params_decodes
              (world_with_sensor calib_bytes_example) (main_params pico_layout) 2
              ltac:(lia)) as [Hval Hneg].
  split.
  - exact Hval.
  - apply Hneg; [reflexivity | vm_compute; discriminate].
Defined.

(** The whole data-sheet calibration comes back from its register bytes. *)
Example decode_calib_datasheet : decode_calib calib_bytes_example = datasheet_calib.
Proof. vm_compute. reflexivity. Qed.

(* ================================================================== *)
(** ** Register map and bus traffic *)

Section BusTraffic.

Lemma bmp280_init_trace (w : world) :
  i2c_trace (w_bus (bmp280_init w)) = i2c_trace (w_bus w) ++ init_txns.
Proof.
  unfold bmp280_init, i2c_write_blocking. cbn [w_bus i2c_trace].
  rewrite <- app_assoc. reflexivity.
Qed.

Lemma bmp280_get_calib_params_trace (w : world) (params : Z) :
  i2c_trace (w_bus (bmp280_get_calib_params w params))
  = i2c_trace (w_bus w) ++ calib_txns.
Proof.
  unfold bmp280_get_calib_params, i2c_read_blocking, i2c_write_blocking.
  cbn [w_bus i2c_trace]. rewrite <- app_assoc. reflexivity.
Qed.

Lemma bmp280_read_raw_trace (w : world) (temp pressure : Z) :
  i2c_trace (w_bus (bmp280_read_raw w temp pressure))
  = i2c_trace (w_bus w) ++ sample_txns.
Proof.
  unfold bmp280_read_raw, i2c_read_blocking, i2c_write_blocking.
  cbn [w_bus i2c_trace]. rewrite <- app_assoc. reflexivity.
Qed.

Lemma bmp280_read_raw_out (w : world) (temp pressure : Z) :
  w_out (bmp280_read_raw w temp pressure) = w_out w.
Proof. reflexivity. Qed.

(** One round of the loop always completes, costs one select/read pair on
    the bus and prints one reading. *)
Lemma main_loop_body_runs (ly : layout) (w : world) :
  exists w', main_loop_body ly w = Some w'
             /\ i2c_trace (w_bus w') = i2c_trace (w_bus w) ++ sample_txns
             /\ length (w_out w') = S (length (w_out w)).
Proof.
  unfold main_loop_body.
  set (w1 := bmp280_read_raw w (main_temp ly) (main_pressure ly)).
  destruct (bmp280_convert_pressure_total (convert_pressure_slots ly) (w_mem w1)
              (main_pressure ly) (main_temp ly) (main_params ly)) as [v [Hv _]].
  rewrite Hv. eexists. split; [reflexivity|]. cbn [w_bus w_out]. split.
  - apply bmp280_read_raw_trace.
  - rewrite length_app. cbn [length]. unfold w1.
    rewrite bmp280_read_raw_out. lia.
Qed.

Lemma main_loop_runs (rounds : nat) (ly : layout) (w : world) :
  exists w', main_loop rounds ly w = Some w'
             /\ i2c_trace (w_bus w')
                = i2c_trace (w_bus w) ++ concat (repeat sample_txns rounds).
Proof.
  revert w. induction rounds as [|k IH]; intro w.
  - exists w. split; [reflexivity|]. cbn [repeat concat]. rewrite app_nil_r. reflexivity.
  - destruct (main_loop_body_runs ly w) as [w1 [Hbody [Htrace _]]].
    destruct (IH w1) as [w2 [Hloop Htrace2]].
    exists w2. cbn [main_loop]. rewrite Hbody. split; [assumption|].
    rewrite Htrace2, Htrace. cbn [repeat concat]. rewrite <- app_assoc. reflexivity.
Qed.

Lemma run_ops_app (ly : layout) (ops1 ops2 : list controller_op) (w : world) :
  run_ops ly (ops1 ++ ops2) w
  = match run_ops ly ops1 w with
    | None => None
    | Some w' => run_ops ly ops2 w'
    end.
Proof.
  revert w. induction ops1 as [|op rest IH]; intro w; cbn [app run_ops].
  - reflexivity.
  - destruct (run_op ly op w) as [w'|]; [apply IH | reflexivity].
Qed.

Lemma run_ops_runs (ly : layout) (ops : list controller_op) (w : world) :
  exists w', run_ops ly ops w = Some w'.
Proof.
  revert w. induction ops as [|op rest IH]; intro w; cbn [run_ops].
  - exists w. reflexivity.
  - destruct op; cbn [run_op]; try apply IH.
    destruct (main_loop_body_runs ly w) as [w1 [Hbody _]].
    rewrite Hbody. apply IH.
Qed.

End BusTraffic.

(** C8. The register constants have the documented values (calibration
    [0x88..0x9F], ADC [0xF7..0xFC], ctrl_meas [0xF4], config [0xF5], reset
    [0xE0]), and [bmp280_init] writes exactly [0b100_101_00], bit 0 clear,
    to the config register and then [0b001_011_11] to ctrl_meas. *)
Theorem register_map_and_init :
  calibration_registers = map (fun k => 0x88 + Z.of_nat k) (seq 0 24)
  /\ last calibration_registers 0 = 0x9F
  /\ adc_registers = [0xF7; 0xF8; 0xF9; 0xFA; 0xFB; 0xFC]
  /\ REG_CTRL_MEAS = 0xF4 /\ REG_CONFIG = 0xF5 /\ REG_RESET = 0xE0
  /\ (forall w : world,
        i2c_trace (w_bus (bmp280_init w))
        = i2c_trace (w_bus w)
          ++ [I2cWrite 0x76
                [byte_of_Z REG_CONFIG;
                 byte_of_Z (byte_of_bits [true; false; false; true; false; true; false; false])]
                false;
              I2cWrite 0x76
                [byte_of_Z REG_CTRL_MEAS;
                 byte_of_Z (byte_of_bits [false; false; true; false; true; true; true; true])]
                false])
  /\ Z.testbit (byte_of_bits [true; false; false; true; false; true; false; false]) 0 = false.
Proof.
  repeat split; try reflexivity.
  intro w. apply bmp280_init_trace.
Qed.

(** C9 (as stated, refuted). A poll issued on a fresh state, before any
    calibration, puts the register select and the 6-byte read on the bus and
    hands back an ordinary reading. *)
Lemma poll_before_calibrate_uses_bus :
  option_map (fun w => i2c_trace (w_bus w))
    (run_ops pico_layout [OpPoll] example_world)
  = Some [I2cWrite 0x76 [xf7] true; I2cRead 0x76 6 false]
  /\
  option_map (fun w => length (w_out w))
    (run_ops pico_layout [OpPoll] example_world)
  = Some 1%nat.
Proof. vm_compute. split; reflexivity. Qed.

(** C9 (amended). The driver has no ordering check and no error result:
    after any sequence of operations, calibrated or not, a poll completes,
    issues the register select and the 6-byte read, and yields a reading.
    The order is fixed by [main] alone, whose bus traffic is the two
    configuration writes, the calibration select and 24-byte read, and then
    one select/read pair per round of the loop. *)
Theorem poll_order_fixed_by_main (ly : layout) (w : world) :
  (forall ops : list controller_op,
     exists w1 w2,
       run_ops ly ops w = Some w1
       /\ run_ops ly (ops ++ [OpPoll]) w = Some w2
       /\ i2c_trace (w_bus w2) = i2c_trace (w_bus w1) ++ sample_txns
       /\ length (w_out w2) = S (length (w_out w1)))
  /\
  (forall rounds : nat,
     exists w',
       main rounds ly w = Some w'
       /\ i2c_trace (w_bus w')
          = i2c_trace (w_bus w) ++ init_txns ++ calib_txns
            ++ concat (repeat sample_txns rounds)).
Proof.
  split.
  - intro ops.
    destruct (run_ops_runs ly ops w) as [w1 H1].
    destruct (main_loop_body_runs ly w1) as [w2 [Hbody [Htrace Hout]]].
    exists w1, w2. rewrite run_ops_app, H1. cbn [run_ops run_op].
    rewrite Hbody. repeat split; assumption.
  - intro rounds. unfold main.
    destruct (main_loop_runs rounds ly
                (bmp280_get_calib_params (bmp280_init w) (main_params ly)))
      as [w' [Hloop Htrace]].
    exists w'. split; [assumption|].
    rewrite Htrace, bmp280_get_calib_params_trace, bmp280_init_trace.
    rewrite <- !app_assoc. reflexivity.
Qed.

(* ================================================================== *)
(** ** Further properties of the bus traffic *)

Lemma bmp280_reset_trace (w : world) :
  i2c_trace (w_bus (bmp280_reset w)) = i2c_trace (w_bus w) ++ reset_txns.
Proof. reflexivity. Qed.

Lemma run_op_trace (ly : layout) (op : controller_op) (w : world) :
  exists w', run_op ly op w = Some w'
             /\ i2c_trace (w_bus w') = i2c_trace (w_bus w) ++ op_txns op.
Proof.
  destruct op; cbn [run_op op_txns].
  - eexists. split; [reflexivity | apply bmp280_reset_trace].
  - eexists. split; [reflexivity | apply bmp280_init_trace].
  - eexists. split; [reflexivity | apply bmp280_get_calib_params_trace].
  - destruct (main_loop_body_runs ly w) as [w' [Hrun [Htrace _]]].
    exists w'. split; assumption.
Qed.

(** X1. Whatever the memory holds and whatever the sensor answers, a
    sequence of driver operations completes and its bus traffic is the
    concatenation of the fixed transactions of each operation: reset writes
    [E0 B6]; init writes [F5 94] then [F4 2F]; the calibration read selects
    [88] and reads 24 bytes; a poll selects [F7] and reads 6 bytes. *)
Theorem run_ops_traffic (ly : layout) (ops : list controller_op) (w : world) :
  exists w', run_ops ly ops w = Some w'
             /\ i2c_trace (w_bus w') = i2c_trace (w_bus w) ++ flat_map op_txns ops.
Proof.
  revert w. induction ops as [|op rest IH]; intro w; cbn [run_ops flat_map].
  - exists w. split; [reflexivity|]. rewrite app_nil_r. reflexivity.
  - destruct (run_op_trace ly op w) as [w1 [Hop Htrace1]].
    destruct (IH w1) as [w2 [Hrest Htrace2]].
    exists w2. rewrite Hop. split; [assumption|].
    rewrite Htrace2, Htrace1, <- app_assoc. reflexivity.
Qed.

Lemma held_bus_paired_op (op : controller_op) (l : list i2c_txn) :
  held_bus_paired (op_txns op ++ l) = held_bus_paired l.
Proof. destruct op; reflexivity. Qed.

Lemma held_bus_paired_ops (ops : list controller_op) :
  held_bus_paired (flat_map op_txns ops) = true.
Proof.
  induction ops as [|op rest IH]; cbn [flat_map].
  - reflexivity.
  - rewrite held_bus_paired_op. assumption.
Qed.

(** X2. The traffic any sequence of driver operations adds to the bus keeps
    the held-bus discipline: every register select that holds the bus is
    followed at once by a read from the same device that releases it, every
    read is preceded by such a select, and every other write releases the
    bus. *)
Theorem run_ops_held_bus (ly : layout) (ops : list controller_op) (w : world) :
  exists w' added,
    run_ops ly ops w = Some w'
    /\ i2c_trace (w_bus w') = i2c_trace (w_bus w) ++ added
    /\ held_bus_paired added = true.
Proof.
  destruct (run_ops_runs ly ops w) as [w' Hrun].
  exists w', (flat_map op_txns ops). split; [assumption|]. split.
  - revert w w' Hrun. induction ops as [|op rest IH]; intros w w' Hrun;
      cbn [run_ops flat_map] in *.
    + injection Hrun as <-. rewrite app_nil_r. reflexivity.
    + destruct (run_op_trace ly op w) as [w1 [Hop Htrace1]].
      rewrite Hop in Hrun. rewrite (IH w1 w' Hrun), Htrace1, <- app_assoc.
      reflexivity.
  - apply held_bus_paired_ops.
Qed.

(* ================================================================== *)
(** ** Further properties of the calibration loader *)

Section CalibrationBytes.

Lemma store8_at (m : mem) (a b v : Z) : a = b -> store8 m b v a = byte_of_Z v.
Proof. intros ->. apply store8_same. Qed.

Lemma byte_of_Z_congr (a b : Z) : a mod 256 = b mod 256 -> byte_of_Z a = byte_of_Z b.
Proof. intro H. unfold byte_of_Z. rewrite H. reflexivity. Qed.

(** The two bytes of a decoded pair, whichever way it was read. *)
Lemma word_bytes (lsb msb v : Z) :
  0 <= lsb < 256 -> 0 <= msb < 256 ->
  v = msb * 256 + lsb \/ v = msb * 256 + lsb - 65536 ->
  v mod 256 = lsb /\ Z.shiftr v 8 mod 256 = msb.
Proof.
  intros Hl Hm Hv. rewrite Z.shiftr_div_pow2 by lia. change (2 ^ 8) with 256.
  destruct Hv as [-> | ->].
  - assert (Hd : (msb * 256 + lsb) / 256 = msb).
    { symmetry. apply Z.div_unique with (r := lsb); lia. }
    rewrite Hd. split.
    + symmetry. apply Z.mod_unique with (q := msb); lia.
    + apply Z.mod_small. lia.
  - assert (Hd : (msb * 256 + lsb - 65536) / 256 = msb - 256).
    { symmetry. apply Z.div_unique with (r := lsb); lia. }
    rewrite Hd. split.
    + symmetry. apply Z.mod_unique with (q := msb - 256); lia.
    + symmetry. apply Z.mod_unique with (q := -1); lia.
Qed.

Lemma unsigned_pair_value (lsb msb : Z) :
  0 <= lsb < 256 -> 0 <= msb < 256 ->
  u16 (Z.lor (u16 (shl32 msb 8)) lsb) = msb * 256 + lsb.
Proof.
  intros Hl Hm. rewrite decode_unsigned_pair by assumption.
  apply pair_word; assumption.
Qed.

Lemma signed_pair_value (lsb msb : Z) :
  0 <= lsb < 256 -> 0 <= msb < 256 ->
  i16 (Z.lor (i16 (shl32 msb 8)) lsb) = msb * 256 + lsb
  \/ i16 (Z.lor (i16 (shl32 msb 8)) lsb) = msb * 256 + lsb - 65536.
Proof.
  intros Hl Hm. rewrite decode_signed_pair, pair_word by assumption.
  rewrite i16_of_word by lia.
  destruct (msb * 256 + lsb <? 2 ^ 15); [left | right]; reflexivity.
Qed.

Lemma unsigned_pair_low (buf : list byte) (i : nat) :
  byte_of_Z (u16 (Z.lor (u16 (shl32 (at_index buf (i + 1)) 8)) (at_index buf i)))
  = nth i buf x00.
Proof.
  pose proof (at_index_range buf i) as Hl.
  pose proof (at_index_range buf (i + 1)) as Hm.
  rewrite <- (byte_of_to_Z (nth i buf x00)). apply byte_of_Z_congr.
  rewrite unsigned_pair_value by assumption.
  destruct (word_bytes _ _ _ Hl Hm (or_introl eq_refl)) as [H _].
  rewrite H. symmetry. apply Z.mod_small. assumption.
Qed.

Lemma unsigned_pair_high (buf : list byte) (i : nat) :
  byte_of_Z (Z.shiftr (u16 (Z.lor (u16 (shl32 (at_index buf (i + 1)) 8)) (at_index buf i))) 8)
  = nth (i + 1) buf x00.
Proof.
  pose proof (at_index_range buf i) as Hl.
  pose proof (at_index_range buf (i + 1)) as Hm.
  rewrite <- (byte_of_to_Z (nth (i + 1) buf x00)). apply byte_of_Z_congr.
  rewrite unsigned_pair_value by assumption.
  destruct (word_bytes _ _ _ Hl Hm (or_introl eq_refl)) as [_ H].
  rewrite H. symmetry. apply Z.mod_small. assumption.
Qed.

Lemma signed_pair_low (buf : list byte) (i : nat) :
  byte_of_Z (i16 (Z.lor (i16 (shl32 (at_index buf (i + 1)) 8)) (at_index buf i)))
  = nth i buf x00.
Proof.
  pose proof (at_index_range buf i) as Hl.
  pose proof (at_index_range buf (i + 1)) as Hm.
  rewrite <- (byte_of_to_Z (nth i buf x00)). apply byte_of_Z_congr.
  destruct (word_bytes _ _ _ Hl Hm (signed_pair_value _ _ Hl Hm)) as [H _].
  rewrite H. symmetry. apply Z.mod_small. assumption.
Qed.

Lemma signed_pair_high (buf : list byte) (i : nat) :
  byte_of_Z (Z.shiftr (i16 (Z.lor (i16 (shl32 (at_index buf (i + 1)) 8)) (at_index buf i))) 8)
  = nth (i + 1) buf x00.
Proof.
  pose proof (at_index_range buf i) as Hl.
  pose proof (at_index_range buf (i + 1)) as Hm.
  rewrite <- (byte_of_to_Z (nth (i + 1) buf x00)). apply byte_of_Z_congr.
  destruct (word_bytes _ _ _ Hl Hm (signed_pair_value _ _ Hl Hm)) as [_ H].
  rewrite H. symmetry. apply Z.mod_small. assumption.
Qed.

(** Byte [k] of the record, once the decoded members are stored. *)
Lemma store_calib_decoded_byte (m : mem) (p : Z) (buf : list byte) (k : nat) :
  (k < 24)%nat ->
  store_calib m p (decode_calib buf) (p + Z.of_nat k) = nth k buf x00.
Proof.
  intro Hk.
  do 24 (destruct k as [|k];
         [ unfold store_calib, store16;
           rewrite ?store8_other by lia;
           rewrite store8_at by lia;
           cbn [decode_calib dig_t1 dig_t2 dig_t3 dig_p1 dig_p2 dig_p3 dig_p4
                dig_p5 dig_p6 dig_p7 dig_p8 dig_p9];
           first [ apply unsigned_pair_low | apply signed_pair_low
                 | apply (unsigned_pair_high buf 0) | apply (unsigned_pair_high buf 6)
                 | apply (signed_pair_high buf 2) | apply (signed_pair_high buf 4)
                 | apply (signed_pair_high buf 8) | apply (signed_pair_high buf 10)
                 | apply (signed_pair_high buf 12) | apply (signed_pair_high buf 14)
                 | apply (signed_pair_high buf 16) | apply (signed_pair_high buf 18)
                 | apply (signed_pair_high buf 20) | apply (signed_pair_high buf 22) ]
         | ]).
  lia.
Qed.

Lemma store_calib_outside (m : mem) (p : Z) (c : bmp280_calib_param) (x : Z) :
  x < p \/ p + 24 <= x -> store_calib m p c x = m x.
Proof.
  intro H. unfold store_calib. rewrite !store16_other by lia. reflexivity.
Qed.

End CalibrationBytes.

(** X3. [bmp280_get_calib_params] leaves in the 24 bytes of [*params] an
    exact copy, in order, of the 24 bytes the sensor delivered (the record
    layout of the target coincides with the register layout), and changes no
    byte of any other object (its own automatic [buf] is not part of the
    memory modelled here). *)
Theorem bmp280_get_calib_params_memory (w : world) (params x : Z) :
  w_mem (bmp280_get_calib_params w params) x
  = if (params <=? x) && (x <? params + 24)
    then nth (Z.to_nat (x - params)) (calib_buffer w) x00
    else w_mem w x.
Proof.
  rewrite bmp280_get_calib_params_mem.
  destruct (Z.leb_spec params x) as [Hlo | Hlo];
    destruct (Z.ltb_spec x (params + 24)) as [Hhi | Hhi]; cbn [andb];
    try (apply store_calib_outside; lia).
  replace x with (params + Z.of_nat (Z.to_nat (x - params))) at 1 by lia.
  apply store_calib_decoded_byte. lia.
Qed.

(* ================================================================== *)
(** ** Further properties of the raw sample reader *)

Section RawSampleFields.

(** The three fields of a raw value do not overlap: the OR is a sum. *)
Lemma raw20_sum (buf : list byte) (i : nat) :
  raw20 buf i
  = 4096 * at_index buf i + 16 * at_index buf (i + 1) + at_index buf (i + 2) / 16.
Proof.
  rewrite raw20_formula.
  pose proof (at_index_range buf i) as H0.
  pose proof (at_index_range buf (i + 1)) as H1.
  pose proof (at_index_range buf (i + 2)) as H2.
  rewrite (Z.shiftl_mul_pow2 (at_index buf (i + 1)) 4) by lia.
  rewrite (lor_shiftl_add (at_index buf i) (at_index buf (i + 1) * 2 ^ 4) 12) by lia.
  replace (at_index buf i * 2 ^ 12 + at_index buf (i + 1) * 2 ^ 4)
    with ((at_index buf i * 256 + at_index buf (i + 1)) * 2 ^ 4) by lia.
  rewrite <- Z.shiftl_mul_pow2 by lia.
  rewrite Z.shiftr_div_pow2 by lia. change (2 ^ 4) with 16.
  assert (0 <= at_index buf (i + 2) / 16 < 16).
  { split; [apply Z.div_pos; lia | apply Z.div_lt_upper_bound; lia]. }
  rewrite lor_shiftl_add by lia. lia.
Qed.

Lemma raw20_fields (buf : list byte) (i : nat) :
  raw20 buf i / 4096 = at_index buf i
  /\ (raw20 buf i / 16) mod 256 = at_index buf (i + 1)
  /\ raw20 buf i mod 16 = at_index buf (i + 2) / 16.
Proof.
  rewrite raw20_sum.
  pose proof (at_index_range buf i) as H0.
  pose proof (at_index_range buf (i + 1)) as H1.
  pose proof (at_index_range buf (i + 2)) as H2.
  assert (Hx : 0 <= at_index buf (i + 2) / 16 < 16).
  { split; [apply Z.div_pos; lia | apply Z.div_lt_upper_bound; lia]. }
  set (b0 := at_index buf i) in *.
  set (b1 := at_index buf (i + 1)) in *.
  set (x := at_index buf (i + 2) / 16) in *.
  assert (Hq : (4096 * b0 + 16 * b1 + x) / 16 = 256 * b0 + b1).
  { symmetry. apply Z.div_unique with (r := x); lia. }
  split; [|split].
  - symmetry. apply Z.div_unique with (r := 16 * b1 + x); lia.
  - rewrite Hq. symmetry. apply Z.mod_unique with (q := b0); lia.
  - symmetry. apply Z.mod_unique with (q := 256 * b0 + b1); lia.
Qed.

Lemma bmp280_read_raw_outside (w : world) (temp pressure x : Z) :
  x < temp \/ temp + 4 <= x ->
  x < pressure \/ pressure + 4 <= x ->
  w_mem (bmp280_read_raw w temp pressure) x = w_mem w x.
Proof.
  intros Ht Hp. rewrite bmp280_read_raw_mem.
  rewrite !store32_other by lia. reflexivity.
Qed.

End RawSampleFields.

(** X4. [bmp280_read_raw] writes nothing but its two outputs: every byte
    outside the four bytes at [temp] and the four bytes at [pressure] is
    left as it was (its own automatic [buf] is not part of the memory
    modelled here). *)
Theorem bmp280_read_raw_frame (w : world) (temp pressure x : Z) :
  x < temp \/ temp + 4 <= x ->
  x < pressure \/ pressure + 4 <= x ->
  w_mem (bmp280_read_raw w temp pressure) x = w_mem w x.
Proof.
  intros Ht Hp. rewrite bmp280_read_raw_mem.
  unfold store32, store16. rewrite !store8_other by lia. reflexivity.
Qed.

Lemma bmp280_read_raw_frame_witness :
  w_mem (bmp280_read_raw example_world (main_temp pico_layout) (main_pressure pico_layout))
    (main_params pico_layout)
  = w_mem example_world (main_params pico_layout).
Proof.
  apply bmp280_read_raw_frame; left; vm_compute; reflexivity.
Defined.

(** X5. The temperature is stored last, so the value found at [temp] is the
    decoded temperature even when the two destinations overlap; called with
    [temp == pressure], the function leaves the temperature there and the
    pressure is lost. *)
Theorem bmp280_read_raw_temperature_last (w : world) (temp pressure : Z) :
  load_i32 (w_mem (bmp280_read_raw w temp pressure)) temp
  = Z.lor (Z.lor (Z.shiftl (at_index (sample_buffer w) 3) 12)
                 (Z.shiftl (at_index (sample_buffer w) 4) 4))
          (Z.shiftr (at_index (sample_buffer w) 5) 4)
  /\
  load_i32 (w_mem (bmp280_read_raw w temp temp)) temp
  = Z.lor (Z.lor (Z.shiftl (at_index (sample_buffer w) 3) 12)
                 (Z.shiftl (at_index (sample_buffer w) 4) 4))
          (Z.shiftr (at_index (sample_buffer w) 5) 4).
Proof.
  rewrite !bmp280_read_raw_temp, raw20_formula. split; reflexivity.
Qed.

(** X6. The raw values keep the three register bytes apart: from the stored
    pressure [p] one reads back [p / 4096 = b0], [(p / 16) mod 256 = b1] and
    [p mod 16 = b2 / 16], and likewise from the stored temperature, so only
    the low four bits of each XLSB byte are dropped. *)
Theorem bmp280_read_raw_fields (w : world) (temp pressure : Z)
    (b0 b1 b2 b3 b4 b5 : byte) :
  sample_buffer w = [b0; b1; b2; b3; b4; b5] ->
  temp + 4 <= pressure \/ pressure + 4 <= temp ->
  (load_i32 (w_mem (bmp280_read_raw w temp pressure)) pressure / 4096 = byte_to_Z b0
   /\ (load_i32 (w_mem (bmp280_read_raw w temp pressure)) pressure / 16) mod 256
      = byte_to_Z b1
   /\ load_i32 (w_mem (bmp280_read_raw w temp pressure)) pressure mod 16
      = byte_to_Z b2 / 16)
  /\
  (load_i32 (w_mem (bmp280_read_raw w temp pressure)) temp / 4096 = byte_to_Z b3
   /\ (load_i32 (w_mem (bmp280_read_raw w temp pressure)) temp / 16) mod 256
      = byte_to_Z b4
   /\ load_i32 (w_mem (bmp280_read_raw w temp pressure)) temp mod 16
      = byte_to_Z b5 / 16).
Proof.
  intros Hbuf Hapart.
  rewrite bmp280_read_raw_pressure, bmp280_read_raw_temp by assumption.
  pose proof (raw20_fields (sample_buffer w) 0) as Hp.
  pose proof (raw20_fields (sample_buffer w) 3) as Ht.
  rewrite Hbuf in Hp, Ht. rewrite Hbuf. split; assumption.
Qed.

Lemma bmp280_read_raw_fields_witness :
  (load_i32 (w_mem (bmp280_read_raw example_world (main_temp pico_layout)
                      (main_pressure pico_layout))) (main_pressure pico_layout) / 4096
   = 0xAB
   /\ (load_i32 (w_mem (bmp280_read_raw example_world (main_temp pico_layout)
                          (main_pressure pico_layout))) (main_pressure pico_layout) / 16)
      mod 256 = 0xCD
   /\ load_i32 (w_mem (bmp280_read_raw example_world (main_temp pico_layout)
                         (main_pressure pico_layout))) (main_pressure pico_layout) mod 16
      = 0xE0 / 16)
  /\
  (load_i32 (w_mem (bmp280_read_raw example_world (main_temp pico_layout)
                      (main_pressure pico_layout))) (main_temp pico_layout) / 4096
   = 0x12
   /\ (load_i32 (w_mem (bmp280_read_raw example_world (main_temp pico_layout)
                          (main_pressure pico_layout))) (main_temp pico_layout) / 16)
      mod 256 = 0x34
   /\ load_i32 (w_mem (bmp280_read_raw example_world (main_temp pico_layout)
                         (main_pressure pico_layout))) (main_temp pico_layout) mod 16
      = 0x50 / 16).
Proof.
  apply (bmp280_read_raw_fields example_world
           (main_temp pico_layout) (main_pressure pico_layout)
           xab xcd xe0 x12 x34 x50).
  - reflexivity.
  - left. vm_compute. discriminate.
Defined.

(* ================================================================== *)
(** ** Further properties of the conversions and of [main] *)

Section Footprints.

Lemma load_i16_ext (m1 m2 : mem) (a : Z) :
  (forall x, a <= x < a + 2 -> m1 x = m2 x) -> load_i16 m1 a = load_i16 m2 a.
Proof. intro H. unfold load_i16. rewrite (load_u16_ext m1 m2 a H). reflexivity. Qed.

Lemma calib_at_ext (m1 m2 : mem) (p : Z) :
  same_bytes m1 m2 p 24 -> calib_at m1 p = calib_at m2 p.
Proof.
  intro H. unfold calib_at, get_dig_t1, get_dig_t2, get_dig_t3, get_dig_p1,
    get_dig_p2, get_dig_p3, get_dig_p4, get_dig_p5, get_dig_p6, get_dig_p7,
    get_dig_p8, get_dig_p9.
  f_equal; first [apply load_u16_ext | apply load_i16_ext];
    intros x Hx; apply H; lia.
Qed.

Lemma main_loop_body_mem (ly : layout) (w w' : world) :
  main_loop_body ly w = Some w' ->
  w_mem w' = w_mem (bmp280_read_raw w (main_temp ly) (main_pressure ly)).
Proof.
  unfold main_loop_body. intro H.
  destruct (bmp280_convert_pressure _ _ _ _ _); [|discriminate].
  injection H as <-. reflexivity.
Qed.

Lemma main_loop_keeps_calib (rounds : nat) (ly : layout) (w w' : world) :
  main_temp ly + 4 <= main_params ly \/ main_params ly + 24 <= main_temp ly ->
  main_pressure ly + 4 <= main_params ly \/ main_params ly + 24 <= main_pressure ly ->
  main_loop rounds ly w = Some w' ->
  calib_at (w_mem w') (main_params ly) = calib_at (w_mem w) (main_params ly).
Proof.
  intros Ht Hp. revert w. induction rounds as [|k IH]; intros w Hrun;
    cbn [main_loop] in Hrun.
  - injection Hrun as <-. reflexivity.
  - destruct (main_loop_body ly w) as [w1|] eqn:Hbody; [|discriminate].
    rewrite (IH w1 Hrun). apply calib_at_ext. intros x Hx.
    rewrite (main_loop_body_mem ly w w1 Hbody).
    apply bmp280_read_raw_outside; lia.
Qed.

End Footprints.

(** X7. The calibration is loaded once and then kept: when the objects
    [temp] and [pressure] of [main] lie outside its [params], then after any
    number of rounds of the loop the record in [params] is still exactly
    what the loader decoded from the 24 bytes read at start-up. *)
Theorem main_keeps_calibration (rounds : nat) (ly : layout) (w : world) :
  main_temp ly + 4 <= main_params ly \/ main_params ly + 24 <= main_temp ly ->
  main_pressure ly + 4 <= main_params ly \/ main_params ly + 24 <= main_pressure ly ->
  exists w',
    main rounds ly w = Some w'
    /\ calib_at (w_mem w') (main_params ly)
       = decode_calib (calib_buffer (bmp280_init w)).
Proof.
  intros Ht Hp. unfold main.
  destruct (main_loop_runs rounds ly
              (bmp280_get_calib_params (bmp280_init w) (main_params ly)))
    as [w' [Hrun _]].
  exists w'. split; [assumption|].
  rewrite (main_loop_keeps_calib rounds ly _ w' Ht Hp Hrun).
  apply bmp280_get_calib_params_result.
Qed.

Lemma main_keeps_calibration_witness :
  exists w',
    main 3 pico_layout (world_with_sensor calib_bytes_example) = Some w'
    /\ calib_at (w_mem w') (main_params pico_layout)
       = decode_calib (calib_buffer (bmp280_init (world_with_sensor calib_bytes_example))).
Proof.
  apply (main_keeps_calibration 3 pico_layout (world_with_sensor calib_bytes_example));
    right; vm_compute; discriminate.
Defined.

(** X8. A calibration record whose [dig_p1] is zero makes
    [bmp280_convert_pressure] return 0 for every raw pressure and every raw
    temperature (the record lying outside the function's argument slots). *)
Theorem bmp280_convert_pressure_dig_p1_zero (sl : arg_slots) (m : mem)
    (pressure temp params : Z) :
  outside_slots sl params 24 ->
  dig_p1 (calib_at m params) = 0 ->
  bmp280_convert_pressure sl m pressure temp params = Some 0.
Proof.
  intros Hout Hp1. unfold bmp280_convert_pressure.
  rewrite pressure_var1_p1_zero; [reflexivity|].
  unfold get_dig_p1. rewrite enter_frame_load_u16.
  - exact Hp1.
  - apply (outside_slots_member sl params 24); [assumption | lia | lia].
Qed.

Lemma bmp280_convert_pressure_dig_p1_zero_witness :
  bmp280_convert_pressure (convert_pressure_slots pico_layout) degenerate_mem
    (main_pressure pico_layout) (main_temp pico_layout) (main_params pico_layout)
  = Some 0.
Proof.
  apply bmp280_convert_pressure_dig_p1_zero.
  - unfold outside_slots, pico_layout; cbn [convert_pressure_slots slot_temp
      slot_params main_params]; lia.
  - vm_compute. reflexivity.
Defined.

Section PointerBits.

Lemma slots_adjacent_apart (sl : arg_slots) : slots_adjacent sl -> slots_apart sl.
Proof. unfold slots_adjacent, slots_apart. lia. Qed.

(** With adjacent slots the third coefficient read through [&params] is the
    low half of the pointer [temp]. *)
Lemma enter_frame_dig_t3_adjacent (sl : arg_slots) (m : mem) (temp params : Z) :
  slots_adjacent sl ->
  get_dig_t3 (enter_frame sl m temp params) (slot_params sl) = i16 temp.
Proof.
  unfold slots_adjacent. intro H. unfold get_dig_t3, enter_frame.
  rewrite load_i16_store32_other by lia.
  rewrite <- H. unfold load_i16. rewrite load_u16_store32_low.
  apply (signed_mod 16). lia.
Qed.

Lemma bmp280_convert_adjacent (sl : arg_slots) (m : mem) (temp params : Z) :
  slots_adjacent sl ->
  bmp280_convert (enter_frame sl m temp params) (slot_temp sl) (slot_params sl)
  = Spec.fine (i32 temp) (pointer_bits_calib params (i16 temp)).
Proof.
  intro H. rewrite bmp280_convert_spec. unfold Spec.fine.
  cbn [calib_at pointer_bits_calib dig_t1 dig_t2 dig_t3].
  rewrite enter_frame_temp by (apply slots_adjacent_apart; assumption).
  rewrite enter_frame_dig_t1, enter_frame_dig_t2.
  rewrite enter_frame_dig_t3_adjacent by assumption.
  reflexivity.
Qed.

Lemma bmp280_convert_temp_adjacent (sl : arg_slots) (m : mem) (temp params : Z) :
  slots_adjacent sl ->
  bmp280_convert_temp sl m temp params
  = Spec.temperature (i32 temp) (pointer_bits_calib params (i16 temp)).
Proof.
  intro H. unfold bmp280_convert_temp, Spec.temperature.
  rewrite bmp280_convert_adjacent by assumption.
  to_spec_ops. reflexivity.
Qed.

End PointerBits.

(** X9. As written (the call passes [&temp] and [&params]), and with the two
    argument slots adjacent, [bmp280_convert_temp] returns the same value for
    every content of memory: the temperature formula applied to the bits of
    its two pointer arguments.  Neither the raw sample nor the calibration
    record influences the result. *)
Theorem bmp280_convert_temp_ignores_memory (sl : arg_slots) (m1 m2 : mem)
    (temp params : Z) :
  slots_adjacent sl ->
  bmp280_convert_temp sl m1 temp params = bmp280_convert_temp sl m2 temp params
  /\ bmp280_convert_temp sl m1 temp params
     = Spec.temperature (i32 temp) (pointer_bits_calib params (i16 temp)).
Proof.
  intro H. rewrite !bmp280_convert_temp_adjacent by assumption.
  split; reflexivity.
Qed.

Lemma bmp280_convert_temp_ignores_memory_witness :
  bmp280_convert_temp (convert_temp_slots pico_layout) datasheet_mem
    (main_temp pico_layout) (main_params pico_layout)
  = bmp280_convert_temp (convert_temp_slots pico_layout) zero_mem
      (main_temp pico_layout) (main_params pico_layout)
  /\ bmp280_convert_temp (convert_temp_slots pico_layout) datasheet_mem
       (main_temp pico_layout) (main_params pico_layout)
     = Spec.temperature (i32 (main_temp pico_layout))
         (pointer_bits_calib (main_params pico_layout) (i16 (main_temp pico_layout))).
Proof.
  apply bmp280_convert_temp_ignores_memory. reflexivity.
Defined.

(** X10. As written, and with adjacent argument slots lying outside the raw
    pressure and the record, [bmp280_convert_pressure] runs its pipeline on
    the raw pressure and the pressure coefficients it is given, but on a
    fine temperature computed from the bits of its pointer arguments: the
    raw temperature and [dig_t1..dig_t3] do not influence the result. *)
Theorem bmp280_convert_pressure_fine_from_pointers (sl : arg_slots) (m : mem)
    (pressure temp params : Z) :
  slots_adjacent sl ->
  outside_slots sl pressure 4 ->
  outside_slots sl params 24 ->
  bmp280_convert_pressure sl m pressure temp params
  = Some (Spec.wrap32
            (Spec.pressure_with Spec.square_shift_then_cast
               (Spec.fine (i32 temp) (pointer_bits_calib params (i16 temp)))
               (load_i32 m pressure) (calib_at m params))).
Proof.
  intros Hadj Hp Hc. rewrite bmp280_convert_pressure_unfold.
  rewrite bmp280_convert_adjacent by assumption.
  rewrite enter_frame_load_i32, enter_frame_calib_at by assumption.
  reflexivity.
Qed.

Lemma bmp280_convert_pressure_fine_from_pointers_witness :
  bmp280_convert_pressure (convert_pressure_slots pico_layout) datasheet_mem
    (main_pressure pico_layout) (main_temp pico_layout) (main_params pico_layout)
  = Some (Spec.wrap32
            (Spec.pressure_with Spec.square_shift_then_cast
               (Spec.fine (i32 (main_temp pico_layout))
                  (pointer_bits_calib (main_params pico_layout)
                     (i16 (main_temp pico_layout))))
               (load_i32 datasheet_mem (main_pressure pico_layout))
               (calib_at datasheet_mem (main_params pico_layout)))).
Proof.
  apply bmp280_convert_pressure_fine_from_pointers.
  - reflexivity.
  - unfold outside_slots, pico_layout; cbn [convert_pressure_slots slot_temp
      slot_params main_pressure]; lia.
  - unfold outside_slots, pico_layout; cbn [convert_pressure_slots slot_temp
      slot_params main_params]; lia.
Defined.

Section Printing.

Lemma main_loop_body_out (ly : layout) (w w' : world) :
  main_loop_body ly w = Some w' ->
  exists p,
    w_out w'
    = w_out w
      ++ [(bmp280_convert_temp (convert_temp_slots ly)
             (w_mem (bmp280_read_raw w (main_temp ly) (main_pressure ly)))
             (main_temp ly) (main_params ly), p)].
Proof.
  unfold main_loop_body. intro H.
  destruct (bmp280_convert_pressure _ _ _ _ _) as [p|]; [|discriminate].
  injection H as <-. exists p. reflexivity.
Qed.

Lemma main_loop_out (rounds : nat) (ly : layout) (w w' : world) (t : Z) :
  (forall m, bmp280_convert_temp (convert_temp_slots ly) m (main_temp ly) (main_params ly) = t) ->
  main_loop rounds ly w = Some w' ->
  exists printed,
    w_out w' = w_out w ++ printed
    /\ length printed = rounds
    /\ Forall (fun r => fst r = t) printed.
Proof.
  intro Ht. revert w. induction rounds as [|k IH]; intros w Hrun;
    cbn [main_loop] in Hrun.
  - injection Hrun as <-. exists []. rewrite app_nil_r. repeat split. constructor.
  - destruct (main_loop_body ly w) as [w1|] eqn:Hbody; [|discriminate].
    destruct (main_loop_body_out ly w w1 Hbody) as [p Hout1].
    destruct (IH w1 Hrun) as [rest [Hout [Hlen Hall]]].
    rewrite Ht in Hout1.
    exists ((t, p) :: rest). split; [|split].
    + rewrite Hout, Hout1, <- app_assoc. reflexivity.
    + cbn [length]. rewrite Hlen. reflexivity.
    + constructor; [reflexivity | assumption].
Qed.

End Printing.

(** X11. As written, [main] prints one reading per round of its loop, and
    (the argument slots of [bmp280_convert_temp] being adjacent) the
    temperature of every reading is the same number, fixed by the addresses
    of [temp] and [params] alone, whatever the sensor delivers. *)
Theorem main_prints_constant_temperature (rounds : nat) (ly : layout) (w : world) :
  slots_adjacent (convert_temp_slots ly) ->
  exists w' printed,
    main rounds ly w = Some w'
    /\ w_out w' = w_out w ++ printed
    /\ length printed = rounds
    /\ Forall (fun r => fst r
                        = Spec.temperature (i32 (main_temp ly))
                            (pointer_bits_calib (main_params ly) (i16 (main_temp ly))))
         printed.
Proof.
  intro Hadj. unfold main.
  set (w0 := bmp280_get_calib_params (bmp280_init w) (main_params ly)).
  destruct (main_loop_runs rounds ly w0) as [w' [Hrun _]].
  destruct (main_loop_out rounds ly w0 w' _
              (fun m => bmp280_convert_temp_adjacent _ m _ _ Hadj) Hrun)
    as [printed [Hout [Hlen Hall]]].
  exists w', printed. repeat split; assumption.
Qed.

Lemma main_prints_constant_temperature_witness :
  exists w' printed,
    main 2 pico_layout example_world = Some w'
    /\ w_out w' = w_out example_world ++ printed
    /\ length printed = 2%nat
    /\ Forall (fun r => fst r
                        = Spec.temperature (i32 (main_temp pico_layout))
                            (pointer_bits_calib (main_params pico_layout)
                               (i16 (main_temp pico_layout))))
         printed.
Proof.
  apply (main_prints_constant_temperature 2 pico_layout example_world).
  reflexivity.
Defined.

(** X12. [bmp280_convert] looks at nothing but the four bytes at [temp] and
    the first six bytes at [params] (the three temperature coefficients):
    two memories that agree there give the same fine temperature, so the
    pressure coefficients never enter it. *)
Theorem bmp280_convert_footprint (m1 m2 : mem) (temp params : Z) :
  same_bytes m1 m2 temp 4 ->
  same_bytes m1 m2 params 6 ->
  bmp280_convert m1 temp params = bmp280_convert m2 temp params.
Proof.
  intros Ht Hp. unfold bmp280_convert, get_dig_t1, get_dig_t2, get_dig_t3.
  rewrite (load_i32_ext m1 m2 temp) by (intros x Hx; apply Ht; lia).
  rewrite (load_u16_ext m1 m2 params) by (intros x Hx; apply Hp; lia).
  rewrite (load_i16_ext m1 m2 (params + 2)) by (intros x Hx; apply Hp; lia).
  rewrite (load_i16_ext m1 m2 (params + 4)) by (intros x Hx; apply Hp; lia).
  reflexivity.
Qed.

Lemma bmp280_convert_footprint_witness :
  bmp280_convert datasheet_mem (main_temp pico_layout) (main_params pico_layout)
  = bmp280_convert degenerate_mem (main_temp pico_layout) (main_params pico_layout).
Proof.
  apply bmp280_convert_footprint; intros x Hx.
  - assert (Hc : x = main_temp pico_layout \/ x = main_temp pico_layout + 1
                 \/ x = main_temp pico_layout + 2 \/ x = main_temp pico_layout + 3) by lia.
    destruct Hc as [-> | [-> | [-> | ->]]]; vm_compute; reflexivity.
  - assert (Hc : x = main_params pico_layout \/ x = main_params pico_layout + 1
                 \/ x = main_params pico_layout + 2 \/ x = main_params pico_layout + 3
                 \/ x = main_params pico_layout + 4 \/ x = main_params pico_layout + 5) by lia.
    destruct Hc as [-> | [-> | [-> | [-> | [-> | ->]]]]]; vm_compute; reflexivity.
Defined.

(** X13. The decoding of the calibration loses nothing: two buffers that
    decode to the same record have the same first 24 bytes. *)
Theorem decode_calib_injective (buf1 buf2 : list byte) (k : nat) :
  decode_calib buf1 = decode_calib buf2 ->
  (k < 24)%nat ->
  nth k buf1 x00 = nth k buf2 x00.
Proof.
  intros Heq Hk.
  rewrite <- (store_calib_decoded_byte zero_mem 0 buf1 k Hk).
  rewrite <- (store_calib_decoded_byte zero_mem 0 buf2 k Hk).
  rewrite Heq. reflexivity.
Qed.

Lemma decode_calib_injective_witness :
  nth 5 calib_bytes_example x00 = nth 5 (calib_bytes_example ++ [xff; x00]) x00.
Proof.
  apply decode_calib_injective.
  - vm_compute. reflexivity.
  - lia.
Defined.
